(** * lizard-tui: report parser, view projection, code window and session

    A shallow embedding of [lizard_tui.py].

    Conventions of the embedding:
    - a Python [str] is a [list ascii]; a character is read as the code
      point of the same number, so the model covers text whose code points
      lie in U+0000..U+00FF.  Whitespace ([str.strip], [\s]), decimal digits
      ([\d]) and [str.lower] follow CPython's tables on that range;
    - a Python [int] is a [Z]; [int()] is modelled without the
      interpreter's configurable limit on the number of digits;
    - a Python [float] is an IEEE 754 binary64 value, a [spec_float] of
      precision 53 and maximal exponent 1024; [float()] rounds a decimal
      literal to the nearest value, ties to even;
    - a raised exception is a value of [exn]; code that can raise returns an
      [outcome]. *)

From Stdlib Require Import Ascii String List ZArith Bool Arith Lia.
From Stdlib Require Import Permutation Sorted SpecFloat DecimalString.
Import ListNotations.

(** ** Strings *)

Module Str.

Definition str := list ascii.

(** A string literal. *)
Definition lit (s : string) : str := list_ascii_of_string s.

Definition code (c : ascii) : nat := nat_of_ascii c.

(** [Py_UNICODE_ISSPACE] on U+0000..U+00FF: TAB..CR, FS..US, SPACE, NEL
    and NBSP. *)
Definition isspace (c : ascii) : bool :=
  let n := code c in
  ((9 <=? n) && (n <=? 13)) || ((28 <=? n) && (n <=? 32))
  || (n =? 133) || (n =? 160).

(** [Py_UNICODE_ISDECIMAL] on U+0000..U+00FF: the ten ASCII digits. *)
Definition isdigit (c : ascii) : bool :=
  let n := code c in (48 <=? n) && (n <=? 57).

(** [str.lower] on one character: A..Z and the Latin-1 capitals
    U+00C0..U+00DE (the multiplication sign U+00D7 apart) move up by 32. *)
Definition lower_char (c : ascii) : ascii :=
  let n := code c in
  if ((65 <=? n) && (n <=? 90))
     || ((192 <=? n) && (n <=? 222) && negb (n =? 215))
  then ascii_of_nat (n + 32) else c.

Definition lower (s : str) : str := map lower_char s.

Definition eqb (a b : str) : bool :=
  if list_eq_dec ascii_dec a b then true else false.

(** [s.startswith(p)] *)
Fixpoint startswith (p s : str) : bool :=
  match p, s with
  | [], _ => true
  | _ :: _, [] => false
  | a :: p', b :: s' => Ascii.eqb a b && startswith p' s'
  end.

(** [p in s]: [p] occurs in [s] as a contiguous block. *)
Fixpoint contains (p s : str) : bool :=
  startswith p s ||
  match s with
  | [] => false
  | _ :: s' => contains p s'
  end.

Fixpoint dropwhile (f : ascii -> bool) (s : str) : str :=
  match s with
  | [] => []
  | c :: s' => if f c then dropwhile f s' else s
  end.

Definition lstrip (s : str) : str := dropwhile isspace s.
Definition rstrip (s : str) : str := rev (dropwhile isspace (rev s)).
(** [s.strip()] *)
Definition strip (s : str) : str := rstrip (lstrip s).

Definition LF : ascii := ascii_of_nat 10.

(** [s.split('\n')]: the pieces between line feeds; never empty. *)
Fixpoint split_lines (s : str) : list str :=
  match s with
  | [] => [[]]
  | c :: s' =>
      if Ascii.eqb c LF then [] :: split_lines s'
      else match split_lines s' with
           | l :: ls => (c :: l) :: ls
           | [] => [[c]]
           end
  end.

(** Code-point order on strings, Python's [<] on [str]. *)
Fixpoint ltb (a b : str) : bool :=
  match a, b with
  | _, [] => false
  | [], _ :: _ => true
  | x :: a', y :: b' =>
      (code x <? code y) || ((code x =? code y) && ltb a' b')
  end.

(** [str(n)] for an [int]. *)
Definition of_Z (z : Z) : str := lit (NilEmpty.string_of_int (Z.to_int z)).

(** [str(n)] for a length. *)
Definition of_nat (n : nat) : str := of_Z (Z.of_nat n).

End Str.
Import Str.

(** ** Exceptions *)

Inductive exn : Type :=
| ValueError (msg : str)
| OSError (msg : str)
| ScreenStackError (msg : str).

(** [str(e)] *)
Definition exn_str (e : exn) : str :=
  match e with
  | ValueError m => m
  | OSError m => m
  | ScreenStackError m => m
  end.

Inductive outcome (A : Type) : Type :=
| Ok (a : A)
| Raise (e : exn).
Arguments Ok {A} a.
Arguments Raise {A} e.

Definition bind {A B} (r : outcome A) (k : A -> outcome B) : outcome B :=
  match r with
  | Ok a => k a
  | Raise e => Raise e
  end.

Notation "x <- c ;; k" := (bind c (fun x => k))
  (at level 61, c at next level, right associativity).

(** ** Numbers *)

Module Num.

Definition digit_val (c : ascii) : Z := (Z.of_nat (code c) - 48)%Z.

(** [int(s)] for a string of decimal digits. *)
Definition int_of_digits (s : str) : Z :=
  fold_left (fun acc c => (10 * acc + digit_val c)%Z) s 0%Z.

Definition float := spec_float.

Definition prec : Z := 53%Z.
Definition emax : Z := 1024%Z.

(** The binary64 nearest to [m / 10^k], ties to even. *)
Definition float_of_decimal (m : Z) (k : nat) : float :=
  match m with
  | Zpos _ =>
      let '(q, e, l) :=
        SFdiv_core_binary prec emax m 0%Z (10 ^ Z.of_nat k)%Z 0%Z in
      binary_round_aux prec emax false q e l
  | _ => S754_zero false
  end.

Definition DOT : ascii := ascii_of_nat 46.

(** The characters before the first dot, and those after it when there is
    one. *)
Fixpoint split_dot (s : str) : str * option str :=
  match s with
  | [] => ([], None)
  | c :: s' =>
      if Ascii.eqb c DOT then ([], Some s')
      else let '(a, b) := split_dot s' in (c :: a, b)
  end.

(** [float(s)] for a string of digits and dots: one dot at most and one
    digit at least, or [ValueError]. *)
Definition float_of_str (s : str) : outcome float :=
  let '(ip, fp) := split_dot s in
  let fp' := match fp with Some f => f | None => [] end in
  if forallb isdigit ip && forallb isdigit fp'
     && negb ((length ip + length fp' =? 0)%nat)
  then Ok (float_of_decimal (int_of_digits (ip ++ fp')) (length fp'))
  else Raise (ValueError
                (lit "could not convert string to float: '" ++ s ++ lit "'")).

Definition float_zero : float := S754_zero false.

(** Python's [<] on floats. *)
Definition float_ltb (a b : float) : bool := SFltb a b.

Definition is_nan (a : float) : bool :=
  match a with S754_nan => true | _ => false end.

End Num.
Import Num.

(** ** Regular expressions

    The three patterns of the parser are sequences of anchors, literal
    characters and repetitions of a one-character class, some of them
    capturing.  [exec] is the backtracking search of [re]: a greedy
    repetition tries its longest run first, a lazy one its shortest, and the
    first alternative under which the rest of the pattern matches wins. *)

Module Re.

Inductive node : Type :=
| Bol                                   (* ^ *)
| Eol                                   (* $ *)
| Lit (c : ascii)                       (* one literal character *)
| Rep (cap : bool) (cls : ascii -> bool) (lo : nat) (greedy : bool).
                                        (* cls{lo,} or cls{lo,}?, captured or not *)

Definition pattern := list node.

(** Length of the longest prefix of [s] made of [cls] characters. *)
Fixpoint run (cls : ascii -> bool) (s : str) : nat :=
  match s with
  | c :: s' => if cls c then S (run cls s') else 0
  | [] => 0
  end.

Fixpoint first_some {A B} (f : A -> option B) (l : list A) : option B :=
  match l with
  | [] => None
  | a :: l' => match f a with
               | Some b => Some b
               | None => first_some f l'
               end
  end.

(** The repetition counts to try, in order, between [lo] and [n]. *)
Definition candidates (greedy : bool) (lo n : nat) : list nat :=
  let up := seq lo (S n - lo) in
  if greedy then rev up else up.

(** [exec p pos s caps]: match [p] against [s], the text that starts at
    offset [pos] of the subject; [caps] are the groups captured so far, last
    first.  Returns the groups in order. *)
Fixpoint exec (p : pattern) (pos : nat) (s : str) (caps : list str)
  : option (list str) :=
  match p with
  | [] => Some (rev caps)
  | Bol :: p' => if pos =? 0 then exec p' pos s caps else None
  | Eol :: p' =>
      match s with
      | [] => exec p' pos s caps
      | [c] => if Ascii.eqb c LF then exec p' pos s caps else None
      | _ => None
      end
  | Lit c :: p' =>
      match s with
      | c' :: s' => if Ascii.eqb c c' then exec p' (S pos) s' caps else None
      | [] => None
      end
  | Rep cap cls lo greedy :: p' =>
      first_some
        (fun k => exec p' (pos + k) (skipn k s)
                    (if cap then firstn k s :: caps else caps))
        (candidates greedy lo (run cls s))
  end.

(** [p.match(s)]: the groups of the match, or [None]. *)
Definition pmatch (p : pattern) (s : str) : option (list str) :=
  exec p 0 s [].

(** [.] *)
Definition dot (c : ascii) : bool := negb (Ascii.eqb c LF).
(** [[\d.]] *)
Definition digit_or_dot (c : ascii) : bool := isdigit c || Ascii.eqb c DOT.

Definition AT : ascii := ascii_of_nat 64.
Definition DASH : ascii := ascii_of_nat 45.
Definition EQUALS : ascii := ascii_of_nat 61.

Definition ws0 := Rep false isspace 0 true.   (* \s* *)
Definition ws1 := Rep false isspace 1 true.   (* \s+ *)
Definition num := Rep true isdigit 1 true.    (* (\d+) *)
Definition dec := Rep true digit_or_dot 1 true. (* ([\d.]+) *)
Definition rest := Rep true dot 1 true.       (* (.+) *)
Definition lazy_name := Rep true dot 1 false. (* (.+?) *)

(** [^\s*(\d+)\s+(\d+)\s+(\d+)\s+(\d+)\s+(\d+)\s+(.+?)@(\d+)-(\d+)@(.+)$] *)
Definition func_pattern : pattern :=
  [Bol; ws0; num; ws1; num; ws1; num; ws1; num; ws1; num; ws1;
   lazy_name; Lit AT; num; Lit DASH; num; Lit AT; rest; Eol].

(** [^\s*(\d+)\s+([\d.]+)\s+([\d.]+)\s+([\d.]+)\s+(\d+)\s+(.+)$] *)
Definition file_pattern : pattern :=
  [Bol; ws0; num; ws1; dec; ws1; dec; ws1; dec; ws1; num; ws1; rest; Eol].

(** [^\s*(\d+)\s+([\d.]+)\s+([\d.]+)\s+([\d.]+)\s+(\d+)\s+(\d+)] *)
Definition total_pattern : pattern :=
  [Bol; ws0; num; ws1; dec; ws1; dec; ws1; dec; ws1; num; ws1; num].

End Re.
Import Re.

(** ** Data model *)

Record FunctionMetrics : Type := {
  fn_nloc : Z;
  fn_ccn : Z;
  token_count : Z;
  param_count : Z;
  fn_length : Z;
  fn_name : str;
  start_line : Z;
  end_line : Z;
  fn_file_path : str
}.

Inductive level : Type := low | medium | high | critical.

Definition complexity_level (f : FunctionMetrics) : level :=
  if (fn_ccn f <=? 5)%Z then low
  else if (fn_ccn f <=? 10)%Z then medium
  else if (fn_ccn f <=? 15)%Z then high
  else critical.

Record FileMetrics : Type := {
  fl_nloc : Z;
  fl_avg_nloc : float;
  fl_avg_ccn : float;
  fl_avg_token : float;
  fl_function_count : Z;
  fl_file_path : str
}.

Record LizardResult : Type := {
  functions : list FunctionMetrics;
  files : list FileMetrics;
  total_nloc : Z;
  avg_nloc : float;
  avg_ccn : float;
  avg_token : float;
  function_count : Z;
  warning_count : Z
}.

(** ** The report parser: [parse_lizard_output] *)

Module Parser.

(** The local variables of [parse_lizard_output] that the loop updates. *)
Record locals : Type := {
  l_functions : list FunctionMetrics;
  l_files : list FileMetrics;
  in_function_section : bool;
  in_file_section : bool;
  in_total_section : bool;
  l_total_nloc : Z;
  l_avg_nloc : float;
  l_avg_ccn : float;
  l_avg_token : float;
  l_function_count : Z;
  l_warning_count : Z
}.

Definition init : locals := {|
  l_functions := []; l_files := [];
  in_function_section := false;
  in_file_section := false;
  in_total_section := false;
  l_total_nloc := 0%Z;
  l_avg_nloc := float_zero; l_avg_ccn := float_zero;
  l_avg_token := float_zero;
  l_function_count := 0%Z; l_warning_count := 0%Z
|}.

Definition set_sections (st : locals) (fn fl tt : bool) : locals := {|
  l_functions := l_functions st; l_files := l_files st;
  in_function_section := fn; in_file_section := fl; in_total_section := tt;
  l_total_nloc := l_total_nloc st;
  l_avg_nloc := l_avg_nloc st; l_avg_ccn := l_avg_ccn st;
  l_avg_token := l_avg_token st;
  l_function_count := l_function_count st;
  l_warning_count := l_warning_count st
|}.

Definition add_function (st : locals) (f : FunctionMetrics) : locals := {|
  l_functions := l_functions st ++ [f]; l_files := l_files st;
  in_function_section := in_function_section st;
  in_file_section := in_file_section st;
  in_total_section := in_total_section st;
  l_total_nloc := l_total_nloc st;
  l_avg_nloc := l_avg_nloc st; l_avg_ccn := l_avg_ccn st;
  l_avg_token := l_avg_token st;
  l_function_count := l_function_count st;
  l_warning_count := l_warning_count st
|}.

Definition add_file (st : locals) (f : FileMetrics) : locals := {|
  l_functions := l_functions st; l_files := l_files st ++ [f];
  in_function_section := in_function_section st;
  in_file_section := in_file_section st;
  in_total_section := in_total_section st;
  l_total_nloc := l_total_nloc st;
  l_avg_nloc := l_avg_nloc st; l_avg_ccn := l_avg_ccn st;
  l_avg_token := l_avg_token st;
  l_function_count := l_function_count st;
  l_warning_count := l_warning_count st
|}.

(** The six totals, in the order the loop assigns them. *)
Record totals : Type := {
  t_total_nloc : Z;
  t_avg_nloc : float;
  t_avg_ccn : float;
  t_avg_token : float;
  t_function_count : Z;
  t_warning_count : Z
}.

Definition set_totals (st : locals) (t : totals) : locals := {|
  l_functions := l_functions st; l_files := l_files st;
  in_function_section := in_function_section st;
  in_file_section := in_file_section st;
  in_total_section := in_total_section st;
  l_total_nloc := t_total_nloc t;
  l_avg_nloc := t_avg_nloc t; l_avg_ccn := t_avg_ccn t;
  l_avg_token := t_avg_token t;
  l_function_count := t_function_count t;
  l_warning_count := t_warning_count t
|}.

Definition FUNCTION_HEADER : str :=
  lit "NLOC    CCN   token  PARAM  length  location".
Definition FILE_HEADER : str :=
  lit "NLOC    Avg.NLOC  AvgCCN  Avg.token  function_cnt    file".
Definition TOTAL_HEADER : str := lit "Total nloc".
Definition NO_THRESHOLDS : str := lit "No thresholds exceeded".
Definition THRESHOLDS : str := lit "thresholds exceeded".

(** What the [if]/[elif] chain at the head of the loop body decides for a
    stripped line. *)
Inductive line_kind : Type :=
| FunctionHeader | FileHeader | TotalHeader | Noise | Thresholds | Data.

Definition classify (line : str) : line_kind :=
  if contains FUNCTION_HEADER line then FunctionHeader
  else if contains FILE_HEADER line then FileHeader
  else if contains TOTAL_HEADER line then TotalHeader
  else if startswith [EQUALS] line || startswith [DASH] line
          || match line with [] => true | _ => false end then Noise
  else if contains NO_THRESHOLDS line || contains THRESHOLDS line
       then Thresholds
  else Data.

(** The [FunctionMetrics(...)] call on a match of [func_pattern]. *)
Definition function_of_groups (g : list str) : option FunctionMetrics :=
  match g with
  | [g1; g2; g3; g4; g5; g6; g7; g8; g9] =>
      Some {| fn_nloc := int_of_digits g1; fn_ccn := int_of_digits g2;
              token_count := int_of_digits g3;
              param_count := int_of_digits g4;
              fn_length := int_of_digits g5; fn_name := g6;
              start_line := int_of_digits g7; end_line := int_of_digits g8;
              fn_file_path := g9 |}
  | _ => None
  end.

(** The [FileMetrics(...)] call on a match of [file_pattern]: the keyword
    arguments are evaluated in order, the first failing [float()] raises. *)
Definition file_of_groups (g : list str) : outcome (option FileMetrics) :=
  match g with
  | [g1; g2; g3; g4; g5; g6] =>
      a <- float_of_str g2 ;;
      b <- float_of_str g3 ;;
      c <- float_of_str g4 ;;
      Ok (Some {| fl_nloc := int_of_digits g1; fl_avg_nloc := a;
                  fl_avg_ccn := b; fl_avg_token := c;
                  fl_function_count := int_of_digits g5;
                  fl_file_path := g6 |})
  | _ => Ok None
  end.

(** The six assignments on a match of [total_pattern].  Each is a plain
    assignment to a local, so a [float()] that raises leaves the earlier
    ones done; the exception then leaves the function and the locals are
    lost with it. *)
Definition totals_of_groups (g : list str) : outcome (option totals) :=
  match g with
  | [g1; g2; g3; g4; g5; g6] =>
      a <- float_of_str g2 ;;
      b <- float_of_str g3 ;;
      c <- float_of_str g4 ;;
      Ok (Some {| t_total_nloc := int_of_digits g1; t_avg_nloc := a;
                  t_avg_ccn := b; t_avg_token := c;
                  t_function_count := int_of_digits g5;
                  t_warning_count := int_of_digits g6 |})
  | _ => Ok None
  end.

(** One turn of the [for] loop on the raw line [raw]. *)
Definition step (st : locals) (raw : str) : outcome locals :=
  let line := strip raw in
  match classify line with
  | FunctionHeader => Ok (set_sections st true false false)
  | FileHeader => Ok (set_sections st false true false)
  | TotalHeader => Ok (set_sections st false false true)
  | Noise => Ok st
  | Thresholds =>
      Ok (set_sections st (in_function_section st) false
            (in_total_section st))
  | Data =>
      if in_function_section st then
        match pmatch func_pattern line with
        | Some g => match function_of_groups g with
                    | Some f => Ok (add_function st f)
                    | None => Ok st
                    end
        | None => Ok st
        end
      else if in_file_section st then
        match pmatch file_pattern line with
        | Some g => r <- file_of_groups g ;;
                    Ok (match r with
                        | Some f => add_file st f
                        | None => st
                        end)
        | None => Ok st
        end
      else if in_total_section st then
        match pmatch total_pattern line with
        | Some g => r <- totals_of_groups g ;;
                    Ok (match r with
                        | Some t => set_totals st t
                        | None => st
                        end)
        | None => Ok st
        end
      else Ok st
  end.

(** The [for] loop. *)
Fixpoint loop (st : locals) (lines : list str) : outcome locals :=
  match lines with
  | [] => Ok st
  | l :: ls => st' <- step st l ;; loop st' ls
  end.

Definition report_of (st : locals) : LizardResult := {|
  functions := l_functions st; files := l_files st;
  total_nloc := l_total_nloc st;
  avg_nloc := l_avg_nloc st; avg_ccn := l_avg_ccn st;
  avg_token := l_avg_token st;
  function_count := l_function_count st;
  warning_count := l_warning_count st
|}.

Definition parse_lines (lines : list str) : outcome LizardResult :=
  st <- loop init lines ;; Ok (report_of st).

Definition parse_lizard_output (output : str) : outcome LizardResult :=
  parse_lines (split_lines output).

End Parser.
Import Parser.

(** ** [sorted]

    CPython's sort is stable and compares with [<] only.  For keys on which
    [<] is a strict weak order the stable sorted arrangement of a list is
    unique, so the sort is modelled by the stable insertion sort (which is
    what CPython runs on short lists).  [reverse=True] is done the way
    [list.sort] does it: reverse, sort, reverse. *)

Module PySort.
Section Sort.

Variables A K : Type.
Variable lt : K -> K -> bool.
Variable key : A -> K.

(** [x] goes in front of the first element whose key is not smaller. *)
Fixpoint insert (x : A) (l : list A) : list A :=
  match l with
  | [] => [x]
  | y :: l' => if lt (key y) (key x) then y :: insert x l' else x :: l
  end.

Fixpoint stable_sort (l : list A) : list A :=
  match l with
  | [] => []
  | x :: l' => insert x (stable_sort l')
  end.

(** [sorted(l, key=key, reverse=reverse)] *)
Definition sorted (reverse : bool) (l : list A) : list A :=
  if reverse then rev (stable_sort (rev l)) else stable_sort l.

(** [a] may come before [b] in ascending order: [b] is not smaller. *)
Definition asc (a b : A) : Prop := lt (key b) (key a) = false.
(** [a] may come before [b] in descending order: [b] is not greater. *)
Definition desc (a b : A) : Prop := lt (key a) (key b) = false.
(** The elements whose key is neither smaller nor greater than [k]. *)
Definition same (k : K) (x : A) : bool :=
  negb (lt (key x) k) && negb (lt k (key x)).

End Sort.

Arguments asc {A K} lt key a b.
Arguments desc {A K} lt key a b.
Arguments same {A K} lt key k x.
Arguments insert {A K} lt key x l.
Arguments stable_sort {A K} lt key l.
Arguments sorted {A K} lt key reverse l.

End PySort.
Import PySort.

(** ** The view projection: the filter and the sorts of [update_tables] *)

Module View.

(** [[f for f in functions if filter_lower in f.name.lower()
      or filter_lower in f.file_path.lower()]] *)
Definition matches (filter_lower : str) (f : FunctionMetrics) : bool :=
  contains filter_lower (lower (fn_name f))
  || contains filter_lower (lower (fn_file_path f)).

(** The [if self.filter_text:] block. *)
Definition filter_functions (filter_text : str)
    (fs : list FunctionMetrics) : list FunctionMetrics :=
  match filter_text with
  | [] => fs
  | _ :: _ => filter (matches (lower filter_text)) fs
  end.

Definition CCN : str := lit "ccn".
Definition NLOC : str := lit "nloc".
Definition NAME : str := lit "name".

(** The [if]/[elif] chain on [self.current_sort] for the functions. *)
Definition sort_functions (current_sort : str)
    (fs : list FunctionMetrics) : list FunctionMetrics :=
  if Str.eqb current_sort CCN then sorted Z.ltb fn_ccn true fs
  else if Str.eqb current_sort NLOC then sorted Z.ltb fn_nloc true fs
  else if Str.eqb current_sort NAME
       then sorted Str.ltb (fun f => lower (fn_name f)) false fs
  else fs.

(** The [if]/[elif] chain on [self.current_sort] for the files. *)
Definition sort_files (current_sort : str)
    (fs : list FileMetrics) : list FileMetrics :=
  if Str.eqb current_sort CCN then sorted float_ltb fl_avg_ccn true fs
  else if Str.eqb current_sort NLOC then sorted Z.ltb fl_nloc true fs
  else if Str.eqb current_sort NAME
       then sorted Str.ltb (fun f => lower (fl_file_path f)) false fs
  else fs.

(** What [update_tables] shows for a report: the rows of the functions
    table (also kept in [_displayed_functions]) and of the files table, in
    order.  A row is modelled by the record it is formatted from. *)
Definition project (r : LizardResult) (filter_text current_sort : str)
  : list FunctionMetrics * list FileMetrics :=
  (sort_functions current_sort (filter_functions filter_text (functions r)),
   sort_files current_sort (files r)).

End View.
Import View.

(** ** The code window of [_show_code_preview] *)

Module Preview.

(** [l[start:stop]] with Python's treatment of negative and overlong
    indices. *)
Definition py_slice {A} (l : list A) (start stop : Z) : list A :=
  let n := Z.of_nat (length l) in
  let norm i := if (i <? 0)%Z then Z.max 0 (i + n) else Z.min i n in
  let a := norm start in
  let b := norm stop in
  firstn (Z.to_nat (b - a)) (skipn (Z.to_nat a) l).

(** [enumerate(l, start=k)] *)
Fixpoint enumerate {A} (l : list A) (k : Z) : list (Z * A) :=
  match l with
  | [] => []
  | x :: l' => (k, x) :: enumerate l' (k + 1)
  end.

(** The numbered lines appended to the preview text: the label printed by
    [f"{i:4} "] and the line after [rstrip]. *)
Definition window (lines : list str) (func : FunctionMetrics)
  : list (Z * str) :=
  let start := Z.max 0 (start_line func - 1) in
  let stop := Z.min (Z.of_nat (length lines)) (end_line func) in
  map (fun il => (fst il, rstrip (snd il)))
      (enumerate (py_slice lines start stop) (start_line func)).

(** What the preview pane is updated with: the text built from the
    function (two heading lines and a rule, then the window), or the
    message of the [except] branch. *)
Inductive content : Type :=
| Code (func : FunctionMetrics) (rows : list (Z * str))
| Message (msg : str).

Definition CANNOT_READ : str := lit "Cannot read file: ".

(** [readlines path] is what [open(path, ...)] and [f.readlines()] give:
    the lines of the file, or the exception raised. *)
Definition show_code_preview (readlines : str -> outcome (list str))
    (func : FunctionMetrics) : content :=
  match readlines (fn_file_path func) with
  | Ok lines => Code func (window lines func)
  | Raise e => Message (CANNOT_READ ++ exn_str e)
  end.

End Preview.
Import Preview.

(** ** The session: [LizardTUI]

    The reactive attributes of the application, the attribute
    [_displayed_functions], and what the handlers write to the widgets they
    query: the rows of the two tables, the summary pane, the status bar and
    the screen stack (the default screen left out).  [workers] are the
    thread workers started by [_do_analysis] that have not finished. *)

Module Session.

Inductive screen : Type :=
| LoadingScreen (path : str)
| LegendScreen.

Record worker : Type := {
  w_id : nat;
  w_path : str;
  is_cancelled : bool
}.

Record LizardTUI : Type := {
  result : option LizardResult;
  current_sort : str;
  filter_text : str;
  is_loading : bool;
  displayed_functions : option (list FunctionMetrics);
  functions_table : list FunctionMetrics;
  files_table : list FileMetrics;
  summary_pane : option LizardResult;
  status_bar : str;
  screen_stack : list screen;
  workers : list worker;
  started : nat
}.

(** The application once mounted, no path given. *)
Definition mounted : LizardTUI := {|
  result := None;
  current_sort := CCN;
  filter_text := [];
  is_loading := false;
  displayed_functions := None;
  functions_table := [];
  files_table := [];
  summary_pane := None;
  status_bar := lit "Ready";
  screen_stack := [];
  workers := [];
  started := 0
|}.

Definition set_result (app : LizardTUI) (r : option LizardResult) := {|
  result := r;
  current_sort := current_sort app; filter_text := filter_text app;
  is_loading := is_loading app;
  displayed_functions := displayed_functions app;
  functions_table := functions_table app; files_table := files_table app;
  summary_pane := summary_pane app; status_bar := status_bar app;
  screen_stack := screen_stack app; workers := workers app;
  started := started app
|}.

Definition set_current_sort (app : LizardTUI) (k : str) := {|
  result := result app;
  current_sort := k; filter_text := filter_text app;
  is_loading := is_loading app;
  displayed_functions := displayed_functions app;
  functions_table := functions_table app; files_table := files_table app;
  summary_pane := summary_pane app; status_bar := status_bar app;
  screen_stack := screen_stack app; workers := workers app;
  started := started app
|}.

Definition set_filter_text (app : LizardTUI) (t : str) := {|
  result := result app;
  current_sort := current_sort app; filter_text := t;
  is_loading := is_loading app;
  displayed_functions := displayed_functions app;
  functions_table := functions_table app; files_table := files_table app;
  summary_pane := summary_pane app; status_bar := status_bar app;
  screen_stack := screen_stack app; workers := workers app;
  started := started app
|}.

Definition set_tables (app : LizardTUI)
    (fs : list FunctionMetrics) (fl : list FileMetrics) := {|
  result := result app;
  current_sort := current_sort app; filter_text := filter_text app;
  is_loading := is_loading app;
  displayed_functions := Some fs;
  functions_table := fs; files_table := fl;
  summary_pane := summary_pane app; status_bar := status_bar app;
  screen_stack := screen_stack app; workers := workers app;
  started := started app
|}.

Definition update_result (app : LizardTUI) (r : option LizardResult) := {|
  result := result app;
  current_sort := current_sort app; filter_text := filter_text app;
  is_loading := is_loading app;
  displayed_functions := displayed_functions app;
  functions_table := functions_table app; files_table := files_table app;
  summary_pane := r; status_bar := status_bar app;
  screen_stack := screen_stack app; workers := workers app;
  started := started app
|}.

Definition update_status (app : LizardTUI) (message : str) := {|
  result := result app;
  current_sort := current_sort app; filter_text := filter_text app;
  is_loading := is_loading app;
  displayed_functions := displayed_functions app;
  functions_table := functions_table app; files_table := files_table app;
  summary_pane := summary_pane app; status_bar := message;
  screen_stack := screen_stack app; workers := workers app;
  started := started app
|}.

Definition set_screen_stack (app : LizardTUI) (st : list screen) := {|
  result := result app;
  current_sort := current_sort app; filter_text := filter_text app;
  is_loading := is_loading app;
  displayed_functions := displayed_functions app;
  functions_table := functions_table app; files_table := files_table app;
  summary_pane := summary_pane app; status_bar := status_bar app;
  screen_stack := st; workers := workers app;
  started := started app
|}.

Definition set_workers (app : LizardTUI) (ws : list worker) (n : nat) := {|
  result := result app;
  current_sort := current_sort app; filter_text := filter_text app;
  is_loading := is_loading app;
  displayed_functions := displayed_functions app;
  functions_table := functions_table app; files_table := files_table app;
  summary_pane := summary_pane app; status_bar := status_bar app;
  screen_stack := screen_stack app; workers := ws;
  started := n
|}.

Definition push_screen (app : LizardTUI) (sc : screen) : LizardTUI :=
  set_screen_stack app (sc :: screen_stack app).

(** [pop_screen] raises when only the default screen is left. *)
Definition pop_screen (app : LizardTUI) : outcome LizardTUI :=
  match screen_stack app with
  | _ :: st => Ok (set_screen_stack app st)
  | [] => Raise (ScreenStackError
                   (lit "Can't pop screen; there must be at least one screen on the stack"))
  end.

Definition update_tables (app : LizardTUI) : LizardTUI :=
  match result app with
  | None => app
  | Some r =>
      let '(fs, fl) := project r (filter_text app) (current_sort app) in
      set_tables app fs fl
  end.

Definition analysis_complete (app : LizardTUI) (r : LizardResult)
  : outcome LizardTUI :=
  app <- pop_screen app ;;
  let app := set_result app (Some r) in
  let app := update_tables app in
  let app := update_result app (result app) in
  Ok (update_status app
        (lit "Analyzed " ++ Str.of_nat (length (files r)) ++ lit " files, "
         ++ Str.of_Z (function_count r) ++ lit " functions")).

Definition analysis_error (app : LizardTUI) (error : str)
  : outcome LizardTUI :=
  app <- pop_screen app ;;
  Ok (update_status app (lit "Error: " ++ error)).

Definition cancel (w : worker) : worker :=
  {| w_id := w_id w; w_path := w_path w; is_cancelled := true |}.

(** Calling the [@work(exclusive=True, thread=True)] method: the workers
    running are cancelled, which for a thread worker sets the flag that
    [is_cancelled] reads, and a new worker is started. *)
Definition start_worker (app : LizardTUI) (path : str) : LizardTUI :=
  let n := S (started app) in
  set_workers app
    (map cancel (workers app)
     ++ [{| w_id := n; w_path := path; is_cancelled := false |}]) n.

Definition run_analysis (app : LizardTUI) (path : str) : LizardTUI :=
  start_worker (push_screen app (LoadingScreen path)) path.

Section Jobs.

(** The analyzer: [run_lizard path] is the text it prints, or the exception
    [subprocess.run] raises. *)
Variable run_lizard : str -> outcome str.

(** The body of [_do_analysis], run by the worker's thread when the
    analyzer returns; [app] is the application at the time the thread calls
    back.  The body does not read the worker's [is_cancelled].
    [call_from_thread] hands an exception of the callback back to the
    thread, inside the [try]. *)
Definition do_analysis (app : LizardTUI) (path : str) : outcome LizardTUI :=
  match (output <- run_lizard path ;; parse_lizard_output output) with
  | Ok r =>
      match analysis_complete app r with
      | Ok app' => Ok app'
      | Raise e => analysis_error app (exn_str e)
      end
  | Raise e => analysis_error app (exn_str e)
  end.

Inductive event : Type :=
| Submit (path : str)             (* Enter in the path input, or Analyze *)
| Finish (id : nat)               (* the thread of worker [id] calls back *)
| FilterChanged (value : str)     (* on_input_changed of the filter input *)
| SortCcn | SortNloc | SortName   (* keys 1, 2, 3 *)
| ClearFilter.                    (* escape *)

Definition find_worker (app : LizardTUI) (id : nat) : option worker :=
  find (fun w => w_id w =? id) (workers app).

Definition remove_worker (app : LizardTUI) (id : nat) : LizardTUI :=
  set_workers app (filter (fun w => negb (w_id w =? id)) (workers app))
    (started app).

Definition handle (app : LizardTUI) (ev : event) : outcome LizardTUI :=
  match ev with
  | Submit path => Ok (run_analysis app path)
  | Finish id =>
      match find_worker app id with
      | Some w => do_analysis (remove_worker app id) (w_path w)
      | None => Ok app
      end
  | FilterChanged value => Ok (update_tables (set_filter_text app value))
  | SortCcn =>
      Ok (update_status (update_tables (set_current_sort app CCN))
            (lit "Sorted by Cyclomatic Complexity (descending)"))
  | SortNloc =>
      Ok (update_status (update_tables (set_current_sort app NLOC))
            (lit "Sorted by NLOC (descending)"))
  | SortName =>
      Ok (update_status (update_tables (set_current_sort app NAME))
            (lit "Sorted by name"))
  | ClearFilter => Ok (update_tables (set_filter_text app []))
  end.

Fixpoint run_events (app : LizardTUI) (evs : list event)
  : outcome LizardTUI :=
  match evs with
  | [] => Ok app
  | ev :: evs' => app' <- handle app ev ;; run_events app' evs'
  end.

End Jobs.

End Session.
Import Session.

(** ** Groups in the location field

    The words of the claims about the location field, as functions: the
    [@digits-digits@] group a text starts with, and the leftmost group of a
    text. *)

Module Location.

(** [group_at s]: when [s] starts with [@], digits, [-], digits, [@], the
    two digit strings and what follows the closing [@]. *)
Definition group_at (s : str) : option (str * str * str) :=
  match s with
  | c :: s1 =>
      if Ascii.eqb c AT then
        match firstn (run isdigit s1) s1, skipn (run isdigit s1) s1 with
        | (_ :: _) as a, c2 :: s3 =>
            if Ascii.eqb c2 DASH then
              match firstn (run isdigit s3) s3, skipn (run isdigit s3) s3 with
              | (_ :: _) as b, c4 :: s5 =>
                  if Ascii.eqb c4 AT then Some (a, b, s5) else None
              | _, _ => None
              end
            else None
        | _, _ => None
        end
      else None
  | [] => None
  end.

(** [leftmost_group s]: the text before the first group of [s], the two
    digit strings of that group and the text after it. *)
Fixpoint leftmost_group (s : str) : option (str * str * str * str) :=
  match group_at s with
  | Some (a, b, r) => Some ([], a, b, r)
  | None =>
      match s with
      | [] => None
      | c :: s' =>
          match leftmost_group s' with
          | Some (pre, a, b, r) => Some (c :: pre, a, b, r)
          | None => None
          end
      end
  end.

(** A non-empty string of decimal digits. *)
Definition is_number (s : str) : bool :=
  match s with [] => false | _ => forallb isdigit s end.

(** A non-empty string of whitespace. *)
Definition is_blank (s : str) : bool :=
  match s with [] => false | _ => forallb isspace s end.

(** Five numbers, each followed by whitespace, then the location field. *)
Definition function_line (d1 w1 d2 w2 d3 w3 d4 w4 d5 w5 field : str) : str :=
  d1 ++ w1 ++ d2 ++ w2 ++ d3 ++ w3 ++ d4 ++ w4 ++ d5 ++ w5 ++ field.


(** What follows the name in [func_pattern]. *)
Definition tail : pattern := [Lit AT; num; Lit DASH; num; Lit AT; rest; Eol].

(** The report with no function, no file and zero totals. *)
Definition empty_report : LizardResult := {|
  functions := []; files := [];
  total_nloc := 0%Z;
  avg_nloc := float_zero; avg_ccn := float_zero; avg_token := float_zero;
  function_count := 0%Z; warning_count := 0%Z
|}.

(** A raw line that is none of the three section headers. *)
Definition no_header (raw : str) : bool :=
  match classify (strip raw) with
  | FunctionHeader | FileHeader | TotalHeader => false
  | Noise | Thresholds | Data => true
  end.

(** The six values a raw line gives when it is read in the totals section:
    it is a data line, [total_pattern] matches it and its three decimals
    convert. *)
Definition totals_line (raw : str) : option totals :=
  match classify (strip raw) with
  | Data =>
      match pmatch total_pattern (strip raw) with
      | Some g =>
          match totals_of_groups g with
          | Ok (Some t) => Some t
          | _ => None
          end
      | None => None
      end
  | _ => None
  end.

(** At most one of the three section flags is set. *)
Definition exclusive (st : locals) : bool :=
  match in_function_section st, in_file_section st, in_total_section st with
  | true, true, _ | true, _, true | _, true, true => false
  | _, _, _ => true
  end.

End Location.
Import Location.

(** ** Sample data, and the invariant of the session *)

(** A report with four functions of cyclomatic complexity 3, 9, 9, 1 and
    a function named [foo_bar]. *)
Definition sample_function (name : string) (ccn : Z) : FunctionMetrics :=
  {| fn_nloc := 10; fn_ccn := ccn; token_count := 40; param_count := 1;
     fn_length := 12; fn_name := lit name; start_line := 1; end_line := 12;
     fn_file_path := lit "src/a.py" |}.

Definition sample_file (path : string) (m : Z) : FileMetrics :=
  {| fl_nloc := 100; fl_avg_nloc := float_of_decimal 85 1;
     fl_avg_ccn := float_of_decimal m 1;
     fl_avg_token := float_of_decimal 301 1;
     fl_function_count := 6; fl_file_path := lit path |}.

Definition sample_report : LizardResult :=
  {| functions := [sample_function "foo_bar" 3; sample_function "b" 9;
                   sample_function "c" 9; sample_function "d" 1];
     files := [sample_file "src/a.py" 42; sample_file "src/b.py" 85;
               sample_file "src/c.py" 42];
     total_nloc := 500; avg_nloc := float_of_decimal 100 1;
     avg_ccn := float_of_decimal 50 1; avg_token := float_of_decimal 400 1;
     function_count := 20; warning_count := 3 |}.

(** Ten lines, as [readlines] gives them. *)
Definition ten_lines : list str :=
  map (fun s => lit s ++ [LF])
    ["def f(x):"%string; "    a = 1"%string; "    b = 2"%string;
     "    c = 3"%string; "    d = 4"%string; "    e = 5"%string;
     "    g = 6"%string; "    h = 7"%string; "    i = 8"%string;
     "    return x"%string].

Definition sample_function_at (first last : Z) : FunctionMetrics :=
  {| fn_nloc := 10; fn_ccn := 3; token_count := 40; param_count := 1;
     fn_length := 12; fn_name := lit "f"; start_line := first;
     end_line := last; fn_file_path := lit "src/a.py" |}.

(** An analyzer that is not installed. *)
Definition missing_lizard (path : str) : outcome str :=
  Raise (OSError (lit "[Errno 2] No such file or directory: 'lizard'")).

(** Two analyses: what the analyzer prints for the paths [a] and [b]. *)
Definition two_lizard (path : str) : outcome str :=
  if startswith (lit "a") path
  then Ok (FUNCTION_HEADER ++ LF :: lit "10  3  45  2  12  foo@5-16@a/x.py")
  else Ok (FUNCTION_HEADER ++ LF :: lit "7  1  20  0  8  bar@1-8@b/y.py").

Definition report_a : LizardResult :=
  {| functions :=
       [{| fn_nloc := 10; fn_ccn := 3; token_count := 45; param_count := 2;
           fn_length := 12; fn_name := lit "foo"; start_line := 5;
           end_line := 16; fn_file_path := lit "a/x.py" |}];
     files := []; total_nloc := 0; avg_nloc := float_zero;
     avg_ccn := float_zero; avg_token := float_zero; function_count := 0;
     warning_count := 0 |}.

Definition report_b : LizardResult :=
  {| functions :=
       [{| fn_nloc := 7; fn_ccn := 1; token_count := 20; param_count := 0;
           fn_length := 8; fn_name := lit "bar"; start_line := 1;
           end_line := 8; fn_file_path := lit "b/y.py" |}];
     files := []; total_nloc := 0; avg_nloc := float_zero;
     avg_ccn := float_zero; avg_token := float_zero; function_count := 0;
     warning_count := 0 |}.

(** What every reachable application satisfies: [is_loading] is never
    assigned, and no worker has an identifier above the count of the
    workers started. *)
Definition inv (app : LizardTUI) : Prop :=
  is_loading app = false
  /\ Forall (fun w => w_id w <= started app) (workers app).

(** ** What the parser can produce *)

Module Shape.

(** The groups of a match of [p], in order: each has the characters of its
    class and the least count of its repetition. *)
Fixpoint groups_ok (p : pattern) (gs : list str) : Prop :=
  match p with
  | [] => gs = []
  | Rep true cls lo _ :: p' =>
      match gs with
      | g :: gs' =>
          forallb cls g = true /\ lo <= length g /\ groups_ok p' gs'
      | [] => False
      end
  | _ :: p' => groups_ok p' gs
  end.

(** A float that is zero, positive or plus infinity: no NaN, no sign. *)
Definition float_nonneg (x : float) : bool :=
  match x with
  | S754_zero false | S754_infinity false | S754_finite false _ _ => true
  | _ => false
  end.

Definition wf_function (f : FunctionMetrics) : Prop :=
  (0 <= fn_nloc f)%Z /\ (0 <= fn_ccn f)%Z /\ (0 <= token_count f)%Z
  /\ (0 <= param_count f)%Z /\ (0 <= fn_length f)%Z
  /\ (0 <= start_line f)%Z /\ (0 <= end_line f)%Z
  /\ fn_name f <> [] /\ forallb dot (fn_name f) = true
  /\ fn_file_path f <> [] /\ forallb dot (fn_file_path f) = true.

Definition wf_file (f : FileMetrics) : Prop :=
  (0 <= fl_nloc f)%Z /\ (0 <= fl_function_count f)%Z
  /\ float_nonneg (fl_avg_nloc f) = true
  /\ float_nonneg (fl_avg_ccn f) = true
  /\ float_nonneg (fl_avg_token f) = true
  /\ fl_file_path f <> [] /\ forallb dot (fl_file_path f) = true.

Definition wf_report (r : LizardResult) : Prop :=
  Forall wf_function (functions r) /\ Forall wf_file (files r)
  /\ (0 <= total_nloc r)%Z /\ (0 <= function_count r)%Z
  /\ (0 <= warning_count r)%Z
  /\ float_nonneg (avg_nloc r) = true /\ float_nonneg (avg_ccn r) = true
  /\ float_nonneg (avg_token r) = true.

End Shape.
Import Shape.

(** ** When the parser raises *)



(** ** File lines *)

(** A non-empty string of digits and dots. *)
Definition is_decimal_field (s : str) : bool :=
  match s with [] => false | _ :: _ => forallb digit_or_dot s end.

(** A number, three decimal fields and a number, each followed by
    whitespace, then the path. *)
Definition file_line (d1 w1 x2 w2 x3 w3 x4 w4 d5 w5 path : str) : str :=
  d1 ++ w1 ++ x2 ++ w2 ++ x3 ++ w3 ++ x4 ++ w4 ++ d5 ++ w5 ++ path.

(** ** Lines that differ by whitespace *)

(** [raw'] is [raw] with whitespace added in front and behind. *)
Definition padded (raw raw' : str) : Prop :=
  exists w1 w2,
    forallb isspace w1 = true /\ forallb isspace w2 = true
    /\ raw' = w1 ++ raw ++ w2.

Definition CR : ascii := ascii_of_nat 13.

(** ** What the session keeps *)

(** The tables show the projection of the report under the filter text and
    the sort key of the application; with no report they show nothing. *)
Definition consistent (app : LizardTUI) : Prop :=
  match result app with
  | None =>
      displayed_functions app = None /\ functions_table app = []
      /\ files_table app = [] /\ summary_pane app = None
  | Some r =>
      displayed_functions app
      = Some (fst (project r (filter_text app) (current_sort app)))
      /\ functions_table app
         = fst (project r (filter_text app) (current_sort app))
      /\ files_table app
         = snd (project r (filter_text app) (current_sort app))
      /\ summary_pane app = Some r
  end.

(** One loading screen for each worker that has not called back, and no
    two workers with one identifier. *)
Definition balanced (app : LizardTUI) : Prop :=
  length (screen_stack app) = length (workers app)
  /\ NoDup (map w_id (workers app))
  /\ Forall (fun w => w_id w <= started app) (workers app).

(** ** The loading screen *)

Module Loading.

(** The path shown by [LoadingScreen.compose]: the path itself, or three
    dots and [path[-31:]], the slice from [-31] to the end. *)
Definition display_path (path : str) : str :=
  if (Z.of_nat (length path) <? 34)%Z then path
  else lit "..." ++ py_slice path (-31) (Z.of_nat (length path)).

End Loading.
Import Loading.

(** ** The complexity distribution of the summary pane *)

Module Summary.

(** [sum(1 for f in functions if c(f))] *)
Definition count (c : FunctionMetrics -> bool) (fs : list FunctionMetrics)
  : Z :=
  fold_left (fun n f => if c f then (n + 1)%Z else n) fs 0%Z.

Definition low_count (r : LizardResult) : Z :=
  count (fun f => (fn_ccn f <=? 5)%Z) (functions r).
Definition medium_count (r : LizardResult) : Z :=
  count (fun f => (5 <? fn_ccn f)%Z && (fn_ccn f <=? 10)%Z) (functions r).
Definition high_count (r : LizardResult) : Z :=
  count (fun f => (10 <? fn_ccn f)%Z && (fn_ccn f <=? 15)%Z) (functions r).
Definition critical_count (r : LizardResult) : Z :=
  count (fun f => (15 <? fn_ccn f)%Z) (functions r).
Definition total (r : LizardResult) : Z := Z.of_nat (length (functions r)).

(** The style of the CCN cell of a row of the functions table, in
    [update_tables]. *)
Definition ccn_style (f : FunctionMetrics) : str :=
  if (fn_ccn f <=? 5)%Z then lit "green"
  else if (fn_ccn f <=? 10)%Z then lit "yellow"
  else if (fn_ccn f <=? 15)%Z then lit "#ff8800"
  else lit "bold red".

(** The style of the counter of a level in the summary pane. *)
Definition level_style (l : level) : str :=
  match l with
  | low => lit "bold green"
  | medium => lit "bold yellow"
  | high => lit "bold #ff8800"
  | critical => lit "bold red"
  end.

Definition level_eqb (a b : level) : bool :=
  match a, b with
  | low, low | medium, medium | high, high | critical, critical => true
  | _, _ => false
  end.

(** The functions of a level, by [complexity_level]. *)
Definition of_level (l : level) (r : LizardResult) : list FunctionMetrics :=
  filter (fun f => level_eqb (complexity_level f) l) (functions r).

End Summary.
Import Summary.

(** ** Copying the critical functions *)

Module Clipboard.

(** The condition of the comprehension in [action_copy_critical]. *)
Definition is_critical (f : FunctionMetrics) : bool :=
  (15 <? fn_ccn f)%Z && negb (contains (lit "test") (lower (fn_file_path f))).

(** The list [critical] after [critical.sort(key=lambda f: f.ccn,
    reverse=True)]. *)
Definition critical_functions (r : LizardResult) : list FunctionMetrics :=
  sorted Z.ltb fn_ccn true (filter is_critical (functions r)).

(** [f"{n:3}"] *)
Definition rjust (width : nat) (s : str) : str :=
  repeat " "%char (width - length s) ++ s.

Definition entry (f : FunctionMetrics) : list str :=
  [lit "CCN " ++ rjust 3 (Str.of_Z (fn_ccn f)) ++ lit " | " ++ fn_name f;
   lit "        | " ++ fn_file_path f ++ lit ":" ++ Str.of_Z (start_line f)
   ++ lit "-" ++ Str.of_Z (end_line f);
   []].

Definition report_lines (critical : list FunctionMetrics) : list str :=
  [lit "CRITICAL FUNCTIONS (CCN > 15)"; repeat EQUALS 50; []]
  ++ flat_map entry critical.

(** [sep.join(l)] *)
Fixpoint join (sep : str) (l : list str) : str :=
  match l with
  | [] => []
  | [x] => x
  | x :: l' => x ++ sep ++ join sep l'
  end.

Definition NO_DATA : str := lit "No data to copy".
Definition NO_CRITICAL : str :=
  lit "No critical functions found (excluding tests)".

Definition copied (n : nat) : str :=
  lit "Copied " ++ Str.of_nat n ++ lit " critical functions to clipboard".

Section Clip.

(** The clipboard tool: [clip text] is [sp.run([...], input=text.encode(),
    check=True)], which returns or raises. *)
Variable clip : str -> outcome unit.

(** [action_copy_critical]: the application afterwards, and the text the
    clipboard tool was run on, if it was run. *)
Definition action_copy_critical (app : LizardTUI) : LizardTUI * option str :=
  match result app with
  | None => (update_status app NO_DATA, None)
  | Some r =>
      match functions r with
      | [] => (update_status app NO_DATA, None)
      | _ :: _ =>
          let critical := critical_functions r in
          match critical with
          | [] => (update_status app NO_CRITICAL, None)
          | _ :: _ =>
              let text := join [LF] (report_lines critical) in
              match clip text with
              | Ok _ => (update_status app (copied (length critical)),
                         Some text)
              | Raise e =>
                  (update_status app (lit "Clipboard error: " ++ exn_str e),
                   Some text)
              end
          end
      end
  end.

End Clip.

End Clipboard.
Import Clipboard.

(** ** Highlighting a row of the functions table *)

Module Highlight.

(** What the handler of a highlighted row does to the preview pane. *)
Inductive highlighted : Type :=
| Unchanged                (* the handler returns before the preview *)
| Shown (c : content)      (* the preview pane is updated with [c] *)
| IndexError.              (* the subscript raises *)

Definition FUNCTIONS_TABLE : str := lit "functions-table".

(** [l[i]]: counted from the end for a negative [i]; nothing when the
    index is out of range. *)
Definition py_item {A} (l : list A) (i : Z) : option A :=
  let n := Z.of_nat (length l) in
  let j := if (i <? 0)%Z then (i + n)%Z else i in
  if (j <? 0)%Z || (n <=? j)%Z then None else nth_error l (Z.to_nat j).

(** [on_data_table_row_highlighted], for the table of identifier
    [table_id] and the cursor row [cursor_row]; [_displayed_functions] is
    an attribute once [update_tables] has stored it. *)
Definition on_data_table_row_highlighted
    (readlines : str -> outcome (list str)) (app : LizardTUI)
    (table_id : str) (cursor_row : Z) : highlighted :=
  if negb (Str.eqb table_id FUNCTIONS_TABLE) then Unchanged
  else
    match result app, displayed_functions app with
    | Some _, Some displayed =>
        if (cursor_row <? 0)%Z
           || (Z.of_nat (length displayed) <=? cursor_row)%Z
        then Unchanged
        else
          match py_item displayed cursor_row with
          | Some func => Shown (show_code_preview readlines func)
          | None => IndexError
          end
    | _, _ => Unchanged
    end.

End Highlight.
Import Highlight.

(** Two states of the loop in the same section. *)
Definition same_sections (a b : locals) : Prop :=
  in_function_section a = in_function_section b
  /\ in_file_section a = in_file_section b
  /\ in_total_section a = in_total_section b.

(** * Facts *)

(** ** Strings *)

Module StrFacts.

Lemma startswith_spec p s :
  startswith p s = true <-> exists t, s = p ++ t.
Proof.
  revert s; induction p as [|a p IH]; intros s; simpl.
  - split; [intros _; now exists s | reflexivity].
  - destruct s as [|b s].
    + split; [discriminate | intros [t H]; discriminate].
    + rewrite andb_true_iff, Ascii.eqb_eq, IH. split.
      * intros [-> [t ->]]. now exists t.
      * intros [t H]. injection H as -> ->. split; [reflexivity | now exists t].
Qed.

Lemma contains_spec p s :
  contains p s = true <-> exists a b, s = a ++ p ++ b.
Proof.
  induction s as [|c s IH].
  - simpl. rewrite orb_false_r, startswith_spec. split.
    + intros [t H]. exists [], t. exact H.
    + intros [a [b H]]. destruct a; [now exists b | discriminate].
  - cbn [contains]. rewrite orb_true_iff, startswith_spec, IH. split.
    + intros [[t H] | [a [b H]]].
      * exists [], t. exact H.
      * exists (c :: a), b. now rewrite H.
    + intros [a [b H]]. destruct a as [|x a].
      * left. now exists b.
      * right. injection H as _ H. now exists a, b.
Qed.

Lemma lower_length s : length (lower s) = length s.
Proof. apply length_map. Qed.

Lemma lower_nil s : lower s = [] <-> s = [].
Proof. destruct s; simpl; split; congruence. Qed.

Lemma dropwhile_head f c s : f c = false -> dropwhile f (c :: s) = c :: s.
Proof. intros H; simpl; now rewrite H. Qed.

(** A text that neither starts nor ends with whitespace is its own
    [strip]. *)
Lemma strip_id c s :
  isspace c = false -> isspace (last (c :: s) c) = false ->
  strip (c :: s) = c :: s.
Proof.
  intros Hc Hl. unfold strip, lstrip, rstrip.
  rewrite (dropwhile_head _ _ _ Hc).
  destruct (exists_last (l := c :: s)) as [t [z E]]; [discriminate|].
  rewrite E in Hl |- *. rewrite last_last in Hl.
  rewrite rev_app_distr. simpl. rewrite Hl. simpl.
  now rewrite rev_involutive.
Qed.

Lemma split_lines_one s :
  forallb (fun c => negb (Ascii.eqb c LF)) s = true -> split_lines s = [s].
Proof.
  induction s as [|c s IH]; simpl; [reflexivity|].
  rewrite andb_true_iff, negb_true_iff. intros [Hc Hs].
  now rewrite Hc, (IH Hs).
Qed.

Lemma split_lines_app a b :
  forallb (fun c => negb (Ascii.eqb c LF)) a = true ->
  split_lines (a ++ LF :: b) = a :: split_lines b.
Proof.
  induction a as [|c a IH]; simpl.
  - intros _. reflexivity.
  - rewrite andb_true_iff, negb_true_iff. intros [Hc Ha].
    now rewrite Hc, (IH Ha).
Qed.

End StrFacts.
Import StrFacts.

(** ** The backtracking search *)

Module ReFacts.

Lemma run_le cls s : run cls s <= length s.
Proof. induction s as [|c s IH]; simpl; [lia|]. destruct (cls c); simpl; lia. Qed.

Lemma run_all cls s : forallb cls s = true -> run cls s = length s.
Proof.
  induction s as [|c s IH]; simpl; [reflexivity|].
  rewrite andb_true_iff. intros [-> H]. now rewrite IH.
Qed.

(** The run of a class stops where its characters stop. *)
Lemma run_app cls a t :
  forallb cls a = true ->
  match t with [] => True | c :: _ => cls c = false end ->
  run cls (a ++ t) = length a.
Proof.
  intros Ha Ht. induction a as [|c a IH]; simpl in *.
  - destruct t as [|c t]; simpl; [reflexivity | now rewrite Ht].
  - apply andb_true_iff in Ha as [-> Ha]. now rewrite IH.
Qed.

Lemma firstn_length_app {A} (a t : list A) : firstn (length a) (a ++ t) = a.
Proof. induction a; simpl; congruence. Qed.

Lemma skipn_length_app {A} (a t : list A) : skipn (length a) (a ++ t) = t.
Proof. induction a; simpl; congruence. Qed.

(** Below the run, the text goes on with a character of the class. *)
Lemma skipn_below_run cls s k :
  k < run cls s -> exists c t, skipn k s = c :: t /\ cls c = true.
Proof.
  revert k; induction s as [|c s IH]; simpl; intros k Hk; [lia|].
  destruct (cls c) eqn:E; [|lia].
  destruct k as [|k]; simpl.
  - now exists c, s.
  - apply IH. lia.
Qed.

Lemma firstn_run cls s : forallb cls (firstn (run cls s) s) = true.
Proof.
  induction s as [|c s IH]; simpl; [reflexivity|].
  destruct (cls c) eqn:E; simpl; [now rewrite E|reflexivity].
Qed.

Lemma skipn_run cls s :
  match skipn (run cls s) s with [] => True | c :: _ => cls c = false end.
Proof.
  induction s as [|c s IH]; simpl; [exact I|].
  destruct (cls c) eqn:E; simpl; [exact IH | exact E].
Qed.

Lemma run_split cls s :
  s = firstn (run cls s) s ++ skipn (run cls s) s.
Proof. now rewrite firstn_skipn. Qed.

Lemma candidates_greedy lo n :
  lo <= n -> exists l, candidates true lo n = n :: l.
Proof.
  intros H. unfold candidates.
  replace (S n - lo) with (S (n - lo)) by lia.
  rewrite seq_S, rev_app_distr. simpl.
  exists (rev (seq lo (n - lo))). f_equal. lia.
Qed.

Lemma in_candidates g lo n k : In k (candidates g lo n) -> lo <= k <= n.
Proof.
  unfold candidates. intros H.
  assert (In k (seq lo (S n - lo))) as H'.
  { destruct g; [now apply in_rev|exact H]. }
  apply in_seq in H'. lia.
Qed.

Lemma candidates_empty g lo n : n < lo -> candidates g lo n = [].
Proof.
  intros H. unfold candidates.
  replace (S n - lo) with 0 by lia. now destruct g.
Qed.

Lemma first_some_none {A B} (f : A -> option B) l :
  (forall a, In a l -> f a = None) -> first_some f l = None.
Proof.
  induction l as [|a l IH]; simpl; intros H; [reflexivity|].
  rewrite (H a) by now left. apply IH. intros; apply H; now right.
Qed.

Lemma first_some_app {A B} (f : A -> option B) l1 l2 :
  (forall a, In a l1 -> f a = None) ->
  first_some f (l1 ++ l2) = first_some f l2.
Proof.
  induction l1 as [|a l IH]; simpl; intros H; [reflexivity|].
  rewrite (H a) by now left. apply IH. intros; apply H; now right.
Qed.

(** A lazy repetition stops at the first count under which the rest of the
    pattern matches. *)
Lemma first_some_lazy {B} (f : nat -> option B) lo n m :
  lo <= m <= n -> (forall k, lo <= k < m -> f k = None) ->
  first_some f (candidates false lo n) = 
  match f m with Some b => Some b | None => first_some f (seq (S m) (n - m)) end.
Proof.
  intros Hm Hf. unfold candidates.
  replace (S n - lo) with ((m - lo) + S (n - m)) by lia.
  rewrite seq_app, first_some_app.
  - replace (lo + (m - lo)) with m by lia. reflexivity.
  - intros k Hk. apply in_seq in Hk. apply Hf. lia.
Qed.

(** A greedy repetition whose shorter counts all fail takes its whole
    run. *)
Lemma first_some_greedy {B} (f : nat -> option B) lo n :
  lo <= n -> (forall k, lo <= k < n -> f k = None) ->
  first_some f (candidates true lo n) = f n.
Proof.
  intros Hn Hf. destruct (candidates_greedy lo n Hn) as [l E].
  assert (forall k, In k l -> f k = None) as Hl.
  { intros k Hk.
    assert (In k (candidates true lo n)) as Hin by (rewrite E; now right).
    apply in_candidates in Hin.
    assert (k <> n).
    { intros ->. unfold candidates in E.
      assert (NoDup (rev (seq lo (S n - lo)))) as Hnd.
      { apply NoDup_rev, seq_NoDup. }
      rewrite E in Hnd. inversion Hnd; contradiction. }
    apply Hf. lia. }
  rewrite E. simpl. destruct (f n); [reflexivity|].
  now apply first_some_none.
Qed.

(** A greedy repetition takes its whole run when the rest matches there. *)
Lemma exec_greedy_whole (cap : bool) cls lo p pos s caps r :
  lo <= run cls s ->
  exec p (pos + run cls s) (skipn (run cls s) s)
    (if cap then firstn (run cls s) s :: caps else caps) = Some r ->
  exec (Rep cap cls lo true :: p) pos s caps = Some r.
Proof.
  intros Hlo H. cbn [exec].
  destruct (candidates_greedy lo _ Hlo) as [l ->]. cbn [first_some].
  now rewrite H.
Qed.

End ReFacts.

Import ReFacts.

(** ** The function-line pattern *)

Module MatchFacts.

Lemma forallb_skipn {A} (f : A -> bool) k l :
  forallb f l = true -> forallb f (skipn k l) = true.
Proof.
  revert k; induction l as [|x l IH]; intros [|k]; simpl; auto.
  rewrite andb_true_iff. intros [_ H]. now apply IH.
Qed.

Lemma firstn_nil_run cls s :
  firstn (run cls s) s = [] <-> run cls s = 0.
Proof.
  split; intros H.
  - apply (f_equal (@length _)) in H. rewrite length_firstn in H.
    pose proof (run_le cls s). simpl in H. lia.
  - now rewrite H.
Qed.

(** A number followed by a literal that is no digit takes all its digits. *)
Lemma exec_num_lit c p pos s caps :
  isdigit c = false ->
  exec (num :: Lit c :: p) pos s caps =
  if 1 <=? run isdigit s
  then exec (Lit c :: p) (pos + run isdigit s) (skipn (run isdigit s) s)
         (firstn (run isdigit s) s :: caps)
  else None.
Proof.
  intros Hc.
  change (exec (num :: Lit c :: p) pos s caps)
    with (first_some
            (fun k => exec (Lit c :: p) (pos + k) (skipn k s)
                        (firstn k s :: caps))
            (candidates true 1 (run isdigit s))).
  destruct (1 <=? run isdigit s) eqn:E.
  - apply Nat.leb_le in E. rewrite first_some_greedy; [reflexivity|exact E|].
    intros k Hk.
    destruct (skipn_below_run isdigit s k) as [c' [t [-> Hc']]]; [lia|].
    cbn [exec]. destruct (Ascii.eqb c c') eqn:Ecc; [|reflexivity].
    apply Ascii.eqb_eq in Ecc. congruence.
  - apply Nat.leb_gt in E. now rewrite candidates_empty.
Qed.

(** The path takes the rest of a line. *)
Lemma exec_rest_eol pos s caps :
  forallb dot s = true ->
  exec [rest; Eol] pos s caps =
  match s with [] => None | _ :: _ => Some (rev (s :: caps)) end.
Proof.
  intros Hs. destruct s as [|c s]; [reflexivity|].
  apply exec_greedy_whole; rewrite (run_all _ _ Hs).
  - simpl; lia.
  - rewrite skipn_all, firstn_all. reflexivity.
Qed.

(** The rest of the pattern matches exactly the texts that start with a
    group followed by a non-empty path. *)
Lemma tail_exec pos s caps :
  forallb dot s = true ->
  exec tail pos s caps =
  match group_at s with
  | Some (a, b, r) =>
      match r with [] => None | _ :: _ => Some (rev (r :: b :: a :: caps)) end
  | None => None
  end.
Proof.
  intros Hs. destruct s as [|c s1]; [reflexivity|].
  unfold tail, group_at.
  change (exec (Lit AT :: num :: Lit DASH :: num :: Lit AT :: [rest; Eol])
            pos (c :: s1) caps)
    with (if Ascii.eqb AT c
          then exec (num :: Lit DASH :: num :: Lit AT :: [rest; Eol])
                 (S pos) s1 caps
          else None).
  rewrite (Ascii.eqb_sym AT c). destruct (Ascii.eqb c AT); [|reflexivity].
  rewrite exec_num_lit by reflexivity.
  destruct (firstn (run isdigit s1) s1) as [|x a] eqn:Ea.
  { apply firstn_nil_run in Ea. now rewrite Ea. }
  assert ((1 <=? run isdigit s1) = true) as ->.
  { apply Nat.leb_le. destruct (run isdigit s1); [discriminate|lia]. }
  destruct (skipn (run isdigit s1) s1) as [|c2 s3] eqn:E2; [reflexivity|].
  change (exec (Lit DASH :: num :: Lit AT :: [rest; Eol])
            (S pos + run isdigit s1) (c2 :: s3) ((x :: a) :: caps))
    with (if Ascii.eqb DASH c2
          then exec (num :: Lit AT :: [rest; Eol])
                 (S (S pos + run isdigit s1)) s3 ((x :: a) :: caps)
          else None).
  rewrite (Ascii.eqb_sym DASH c2). destruct (Ascii.eqb c2 DASH); [|reflexivity].
  rewrite exec_num_lit by reflexivity.
  destruct (firstn (run isdigit s3) s3) as [|y b] eqn:Eb.
  { apply firstn_nil_run in Eb. now rewrite Eb. }
  assert ((1 <=? run isdigit s3) = true) as ->.
  { apply Nat.leb_le. destruct (run isdigit s3); [discriminate|lia]. }
  destruct (skipn (run isdigit s3) s3) as [|c4 s5] eqn:E4; [reflexivity|].
  match goal with
  | |- exec (Lit AT :: ?p) ?q (c4 :: s5) ?cs = _ =>
      change (exec (Lit AT :: p) q (c4 :: s5) cs)
        with (if Ascii.eqb AT c4 then exec p (S q) s5 cs else None)
  end.
  rewrite (Ascii.eqb_sym AT c4). destruct (Ascii.eqb c4 AT); [|reflexivity].
  apply exec_rest_eol.
  assert (forallb dot (c4 :: s5) = true) as H5.
  { rewrite <- E4. apply forallb_skipn.
    assert (forallb dot (c2 :: s3) = true) as H3.
    { rewrite <- E2. apply forallb_skipn.
      simpl in Hs. now apply andb_true_iff in Hs as [_ Hs]. }
    simpl in H3. now apply andb_true_iff in H3 as [_ H3]. }
  simpl in H5. now apply andb_true_iff in H5 as [_ H5].
Qed.


Lemma space_not_digit c : isspace c = true -> isdigit c = false.
Proof.
  destruct c as [[] [] [] [] [] [] [] []]; vm_compute; congruence.
Qed.

Lemma digit_not_space c : isdigit c = true -> isspace c = false.
Proof.
  intros H. destruct (isspace c) eqn:E; [|reflexivity].
  apply space_not_digit in E. congruence.
Qed.

Lemma is_number_spec d :
  is_number d = true -> forallb isdigit d = true /\ 1 <= length d.
Proof. destruct d; simpl; [discriminate|]. intros H; split; [exact H|lia]. Qed.

Lemma is_blank_spec w :
  is_blank w = true ->
  forallb isspace w = true /\ exists c w', w = c :: w' /\ isspace c = true.
Proof.
  destruct w as [|c w]; simpl; [discriminate|]. intros H; split; [exact H|].
  exists c, w. apply andb_true_iff in H as [H _]. now split.
Qed.

(** A number and the whitespace after it are taken whole when what follows
    starts with no whitespace. *)
Lemma exec_num_ws d w s p caps res :
  is_number d = true -> is_blank w = true ->
  match s with [] => True | x :: _ => isspace x = false end ->
  (forall q, exec p q s (d :: caps) = Some res) ->
  forall q, exec (num :: ws1 :: p) q (d ++ w ++ s) caps = Some res.
Proof.
  intros Hd Hw Hs Hp q.
  apply is_number_spec in Hd as [Hd Hd1].
  apply is_blank_spec in Hw as [Hw [c [w' [Ew Hc]]]].
  assert (run isdigit (d ++ w ++ s) = length d) as Er.
  { apply run_app; [exact Hd|]. rewrite Ew. simpl.
    now apply space_not_digit. }
  apply exec_greedy_whole; rewrite Er; [exact Hd1|].
  rewrite skipn_length_app, firstn_length_app.
  assert (run isspace (w ++ s) = length w) as Ew'.
  { now apply run_app. }
  apply exec_greedy_whole; rewrite Ew'.
  - rewrite Ew; simpl; lia.
  - rewrite skipn_length_app. apply Hp.
Qed.

Lemma leftmost_group_spec t : forall pre a b r,
  leftmost_group t = Some (pre, a, b, r) ->
  (forall j, j < length pre -> group_at (skipn j t) = None)
  /\ group_at (skipn (length pre) t) = Some (a, b, r)
  /\ firstn (length pre) t = pre
  /\ length pre <= length t.
Proof.
  induction t as [|c t IH]; intros pre a b r H.
  - simpl in H. discriminate.
  - cbn [leftmost_group] in H.
    destruct (group_at (c :: t)) as [[[a' b'] r']|] eqn:Eg.
    + injection H as <- <- <- <-. simpl.
      split; [intros j Hj; lia|]. split; [exact Eg|].
      split; [reflexivity|lia].
    + destruct (leftmost_group t) as [[[[pre' a'] b'] r']|] eqn:El;
        [|discriminate].
      injection H as <- <- <- <-.
      destruct (IH _ _ _ _ eq_refl) as [H1 [H2 [H3 H4]]].
      simpl. split; [|split; [exact H2|split; [now rewrite H3|lia]]].
      intros [|j] Hj; [exact Eg|]. apply H1. lia.
Qed.

(** The lazy name stops in front of the leftmost group found after its
    first character. *)
Lemma exec_name pos c t caps pre a b r :
  forallb dot (c :: t) = true ->
  leftmost_group t = Some (pre, a, b, r) -> r <> [] ->
  exec (lazy_name :: tail) pos (c :: t) caps
  = Some (rev (r :: b :: a :: (c :: pre) :: caps)).
Proof.
  intros Hdot Hl Hr.
  destruct (leftmost_group_spec _ _ _ _ _ Hl) as [H1 [H2 [H3 H4]]].
  change (exec (lazy_name :: tail) pos (c :: t) caps)
    with (first_some
            (fun k => exec tail (pos + k) (skipn k (c :: t))
                        (firstn k (c :: t) :: caps))
            (candidates false 1 (run dot (c :: t)))).
  rewrite (run_all _ _ Hdot).
  rewrite (first_some_lazy _ 1 (length (c :: t)) (S (length pre))).
  - rewrite tail_exec by (now apply forallb_skipn).
    simpl skipn. rewrite H2. simpl firstn. rewrite H3.
    destruct r; [contradiction|reflexivity].
  - simpl; lia.
  - intros [|j] Hj; [lia|].
    rewrite tail_exec by (now apply forallb_skipn).
    simpl skipn. rewrite H1 by lia. reflexivity.
Qed.

Lemma head_number d s :
  is_number d = true ->
  match d ++ s with [] => True | x :: _ => isspace x = false end.
Proof.
  destruct d as [|x d]; simpl; [discriminate|].
  rewrite andb_true_iff. intros [H _]. now apply digit_not_space.
Qed.

(** At the start of a line that opens with no whitespace, [^\s*] takes
    nothing. *)
Lemma exec_bol_ws0 p s caps r :
  match s with [] => True | x :: _ => isspace x = false end ->
  exec p 0 s caps = Some r ->
  exec (Bol :: ws0 :: p) 0 s caps = Some r.
Proof.
  intros Hs H.
  change (exec (Bol :: ws0 :: p) 0 s caps) with (exec (ws0 :: p) 0 s caps).
  assert (run isspace s = 0) as E.
  { destruct s as [|x s]; [reflexivity|]. simpl. now rewrite Hs. }
  apply exec_greedy_whole; rewrite E; [lia|]. exact H.
Qed.

(** The match of [func_pattern] on a line of five numbers and a location
    field. *)
Lemma func_pattern_match d1 w1 d2 w2 d3 w3 d4 w4 d5 w5 c t pre a b r :
  is_number d1 = true -> is_blank w1 = true ->
  is_number d2 = true -> is_blank w2 = true ->
  is_number d3 = true -> is_blank w3 = true ->
  is_number d4 = true -> is_blank w4 = true ->
  is_number d5 = true -> is_blank w5 = true ->
  isspace c = false -> forallb dot (c :: t) = true ->
  leftmost_group t = Some (pre, a, b, r) -> r <> [] ->
  pmatch func_pattern (function_line d1 w1 d2 w2 d3 w3 d4 w4 d5 w5 (c :: t))
  = Some [d1; d2; d3; d4; d5; c :: pre; a; b; r].
Proof.
  intros D1 W1 D2 W2 D3 W3 D4 W4 D5 W5 Hc Hdot Hl Hr.
  unfold pmatch, func_pattern, function_line.
  apply exec_bol_ws0; [now apply head_number|].
  apply exec_num_ws; [assumption|assumption|now apply head_number|].
  intros q1. apply exec_num_ws; [assumption|assumption|now apply head_number|].
  intros q2. apply exec_num_ws; [assumption|assumption|now apply head_number|].
  intros q3. apply exec_num_ws; [assumption|assumption|now apply head_number|].
  intros q4. apply exec_num_ws; [assumption|assumption|exact Hc|].
  intros q5. now apply (exec_name q5 c t [d5; d4; d3; d2; d1]).
Qed.

End MatchFacts.

Import MatchFacts.

(** ** The parser loop *)

Module ParserFacts.

Lemma loop_app st l1 l2 :
  loop st (l1 ++ l2) = (st' <- loop st l1 ;; loop st' l2).
Proof.
  revert st; induction l1 as [|l l1 IH]; intros st; simpl; [reflexivity|].
  destruct (step st l); simpl; [apply IH|reflexivity].
Qed.



Lemma last_app_cons {A} (l : list A) x t d :
  last (l ++ x :: t) d = last (x :: t) d.
Proof.
  induction l as [|y l IH]; [reflexivity|].
  change ((y :: l) ++ x :: t) with (y :: (l ++ x :: t)).
  destruct (l ++ x :: t) eqn:E; [destruct l; discriminate|].
  rewrite <- E at 1. rewrite <- IH. now rewrite E.
Qed.

Lemma last_indep {A} (l : list A) x d d' : last (x :: l) d = last (x :: l) d'.
Proof.
  revert x; induction l as [|y l IH]; intros x; [reflexivity|].
  change (last (y :: l) d = last (y :: l) d'). apply IH.
Qed.

(** A line of five numbers and a location field is its own [strip] when the
    field ends with no whitespace. *)
Lemma strip_function_line d1 w1 d2 w2 d3 w3 d4 w4 d5 w5 c t :
  is_number d1 = true -> isspace (last (c :: t) c) = false ->
  strip (function_line d1 w1 d2 w2 d3 w3 d4 w4 d5 w5 (c :: t))
  = function_line d1 w1 d2 w2 d3 w3 d4 w4 d5 w5 (c :: t).
Proof.
  intros D1 Hl. unfold function_line.
  destruct d1 as [|x d1]; [discriminate|].
  simpl in D1. apply andb_true_iff in D1 as [Hx _].
  change ((x :: d1) ++ ?r) with (x :: (d1 ++ r)).
  apply strip_id; [now apply digit_not_space|].
  change (x :: d1 ++ ?r) with ((x :: d1) ++ r).
  repeat rewrite app_assoc. rewrite last_app_cons.
  now rewrite (last_indep t c x c).
Qed.

(** One turn of the loop on a function line, in the function section. *)
Lemma step_function_line st d1 w1 d2 w2 d3 w3 d4 w4 d5 w5 c t pre a b path :
  in_function_section st = true ->
  is_number d1 = true -> is_blank w1 = true ->
  is_number d2 = true -> is_blank w2 = true ->
  is_number d3 = true -> is_blank w3 = true ->
  is_number d4 = true -> is_blank w4 = true ->
  is_number d5 = true -> is_blank w5 = true ->
  isspace c = false -> forallb dot (c :: t) = true ->
  isspace (last (c :: t) c) = false ->
  leftmost_group t = Some (pre, a, b, path) -> path <> [] ->
  classify (function_line d1 w1 d2 w2 d3 w3 d4 w4 d5 w5 (c :: t)) = Data ->
  step st (function_line d1 w1 d2 w2 d3 w3 d4 w4 d5 w5 (c :: t))
  = Ok (add_function st
          {| fn_nloc := int_of_digits d1; fn_ccn := int_of_digits d2;
             token_count := int_of_digits d3;
             param_count := int_of_digits d4;
             fn_length := int_of_digits d5; fn_name := c :: pre;
             start_line := int_of_digits a; end_line := int_of_digits b;
             fn_file_path := path |}).
Proof.
  intros Hst D1 W1 D2 W2 D3 W3 D4 W4 D5 W5 Hc Hdot Hlast Hl Hp Hk.
  unfold step.
  rewrite strip_function_line by assumption.
  rewrite Hk, Hst.
  rewrite (func_pattern_match d1 w1 d2 w2 d3 w3 d4 w4 d5 w5 c t pre a b path)
    by assumption.
  reflexivity.
Qed.

Lemma parse_lines_snoc pre st l st' :
  loop init pre = Ok st -> step st l = Ok st' ->
  parse_lines (pre ++ [l]) = Ok (report_of st').
Proof.
  intros Hpre Hl. unfold parse_lines.
  rewrite loop_app, Hpre. simpl. now rewrite Hl.
Qed.

End ParserFacts.

Import ParserFacts.

(** * The claims about the parser *)








(** The same line after the header, in the text given to the parser. *)
Example function_line_in_text :
  parse_lizard_output
    (FUNCTION_HEADER ++ LF :: lit "10  3  45  2  12  foo@5-16@src/a.py")
  = Ok {| functions :=
            [{| fn_nloc := 10; fn_ccn := 3; token_count := 45;
                param_count := 2; fn_length := 12; fn_name := lit "foo";
                start_line := 5; end_line := 16;
                fn_file_path := lit "src/a.py" |}];
          files := [];
          total_nloc := 0; avg_nloc := float_zero; avg_ccn := float_zero;
          avg_token := float_zero; function_count := 0;
          warning_count := 0 |}.
Proof. vm_compute. reflexivity. Qed.


(** C10 as stated fails: the field [@1-2@foo@3-4@bar] starts with a group,
    so its leftmost group is at its first character and the split claimed is
    (empty name, 1, 2, [foo@3-4@bar]); the parser splits at the second
    group. *)
Lemma leftmost_split_counterexample :
  leftmost_group (lit "@1-2@foo@3-4@bar")
  = Some ([], lit "1", lit "2", lit "foo@3-4@bar")
  /\ parse_lines [FUNCTION_HEADER; lit "1 2 3 4 5 @1-2@foo@3-4@bar"]
     = Ok {| functions :=
               [{| fn_nloc := 1; fn_ccn := 2; token_count := 3;
                   param_count := 4; fn_length := 5;
                   fn_name := lit "@1-2@foo";
                   start_line := 3; end_line := 4;
                   fn_file_path := lit "bar" |}];
             files := [];
             total_nloc := 0; avg_nloc := float_zero;
             avg_ccn := float_zero; avg_token := float_zero;
             function_count := 0; warning_count := 0 |}
  /\ (lit "@1-2@foo", 3%Z, 4%Z, lit "bar")
     <> ([], int_of_digits (lit "1"), int_of_digits (lit "2"),
         lit "foo@3-4@bar").
Proof.
  split; [vm_compute; reflexivity|].
  split; [vm_compute; reflexivity|]. discriminate.
Qed.

(** C10, amended.  While the parser is in the function section, on a data
    line of five numbers and a field that starts and ends with no
    whitespace and holds no line feed, the parser splits the field at the
    leftmost group found after the field's first character, when that group
    is followed by one character at least: the name is the field up to that
    group, the two numbers of the group are the start and end lines, and
    what follows its closing [@] is the path. *)
Theorem function_line_split :
  forall pre st d1 w1 d2 w2 d3 w3 d4 w4 d5 w5 c t name' a b path,
    loop init pre = Ok st -> in_function_section st = true ->
    is_number d1 = true -> is_blank w1 = true ->
    is_number d2 = true -> is_blank w2 = true ->
    is_number d3 = true -> is_blank w3 = true ->
    is_number d4 = true -> is_blank w4 = true ->
    is_number d5 = true -> is_blank w5 = true ->
    isspace c = false -> forallb dot (c :: t) = true ->
    isspace (last (c :: t) c) = false ->
    leftmost_group t = Some (name', a, b, path) -> path <> [] ->
    classify (function_line d1 w1 d2 w2 d3 w3 d4 w4 d5 w5 (c :: t)) = Data ->
    parse_lines
      (pre ++ [function_line d1 w1 d2 w2 d3 w3 d4 w4 d5 w5 (c :: t)])
    = Ok (report_of
            (add_function st
               {| fn_nloc := int_of_digits d1; fn_ccn := int_of_digits d2;
                  token_count := int_of_digits d3;
                  param_count := int_of_digits d4;
                  fn_length := int_of_digits d5; fn_name := c :: name';
                  start_line := int_of_digits a;
                  end_line := int_of_digits b;
                  fn_file_path := path |})).
Proof.
  intros pre st d1 w1 d2 w2 d3 w3 d4 w4 d5 w5 c t name' a b path
    Hpre Hst D1 W1 D2 W2 D3 W3 D4 W4 D5 W5 Hc Hdot Hlast Hl Hp Hk.
  apply (parse_lines_snoc pre st _ _ Hpre).
  now apply step_function_line.
Qed.

Lemma function_line_split_witness :
  parse_lines [FUNCTION_HEADER; lit "1 2 3 4 5 a@1-2@foo@3-4@bar"]
  = Ok {| functions :=
            [{| fn_nloc := 1; fn_ccn := 2; token_count := 3;
                param_count := 4; fn_length := 5; fn_name := lit "a";
                start_line := 1; end_line := 2;
                fn_file_path := lit "foo@3-4@bar" |}];
          files := [];
          total_nloc := 0; avg_nloc := float_zero; avg_ccn := float_zero;
          avg_token := float_zero; function_count := 0;
          warning_count := 0 |}.
Proof.
  refine (function_line_split [FUNCTION_HEADER]
            (set_sections init true false false)
            (lit "1") (lit " ") (lit "2") (lit " ") (lit "3") (lit " ")
            (lit "4") (lit " ") (lit "5") (lit " ")
            "a"%char (lit "@1-2@foo@3-4@bar")
            [] (lit "1") (lit "2") (lit "foo@3-4@bar")
            eq_refl eq_refl eq_refl eq_refl eq_refl eq_refl eq_refl eq_refl
            eq_refl eq_refl eq_refl eq_refl eq_refl eq_refl eq_refl
            eq_refl _ eq_refl).
  discriminate.
Defined.

(** A field that starts with a group: the name runs to the next group. *)
Example function_line_split_at_second :
  leftmost_group (lit "1-2@foo@3-4@bar")
  = Some (lit "1-2@foo", lit "3", lit "4", lit "bar").
Proof. vm_compute. reflexivity. Qed.


(** C1.  The parser does raise: in the file section the pattern takes any
    run of digits and dots for a decimal, and [float()] refuses a run with
    no digit or with two dots.  The same holds in the totals section. *)
Theorem parse_raises_on_malformed_decimal :
  parse_lizard_output (FILE_HEADER ++ LF :: lit "1 . 1 1 1 x")
  = Raise (ValueError (lit "could not convert string to float: '.'"))
  /\ parse_lizard_output (TOTAL_HEADER ++ LF :: lit "500 10.0 1.2.3 40.0 20 3")
     = Raise (ValueError (lit "could not convert string to float: '1.2.3'")).
Proof. split; vm_compute; reflexivity. Qed.

Module TotalsFacts.

Lemma step_no_header raw : no_header raw = true -> step init raw = Ok init.
Proof.
  unfold no_header, step.
  destruct (classify (strip raw)); try discriminate; reflexivity.
Qed.

Lemma loop_no_header lines :
  forallb no_header lines = true -> loop init lines = Ok init.
Proof.
  induction lines as [|l ls IH]; simpl; [reflexivity|].
  rewrite andb_true_iff. intros [Hl Hls].
  rewrite (step_no_header l Hl). simpl. now apply IH.
Qed.

Lemma step_exclusive st raw st' :
  step st raw = Ok st' -> exclusive st = true -> exclusive st' = true.
Proof.
  unfold step, exclusive. destruct st as [fs fl a b c n1 x1 x2 x3 n2 n3].
  cbn [in_function_section in_file_section in_total_section].
  destruct (classify (strip raw)).
  1-5: intros H; injection H as <-; simpl; destruct a, b, c;
       simpl; congruence.
  destruct a.
  { destruct (pmatch func_pattern (strip raw)) as [g|];
      [destruct (function_of_groups g)|];
      intros H; injection H as <-; exact (fun e => e). }
  destruct b.
  { destruct (pmatch file_pattern (strip raw)) as [g|];
      [destruct (file_of_groups g) as [[f|]|]|]; simpl;
      intros H; try discriminate; injection H as <-; exact (fun e => e). }
  destruct c.
  { destruct (pmatch total_pattern (strip raw)) as [g|];
      [destruct (totals_of_groups g) as [[f|]|]|]; simpl;
      intros H; try discriminate; injection H as <-; exact (fun e => e). }
  intros H; injection H as <-; exact (fun e => e).
Qed.

Lemma loop_exclusive lines : forall st st',
  loop st lines = Ok st' -> exclusive st = true -> exclusive st' = true.
Proof.
  induction lines as [|l ls IH]; simpl; intros st st' H Hx.
  - injection H as <-. exact Hx.
  - destruct (step st l) as [st1|] eqn:E; [|discriminate]. simpl in H.
    apply (IH _ _ H). exact (step_exclusive _ _ _ E Hx).
Qed.

(** Only the totals section is open once its flag is set. *)
Lemma exclusive_total st :
  exclusive st = true -> in_total_section st = true ->
  in_function_section st = false /\ in_file_section st = false.
Proof.
  unfold exclusive.
  destruct (in_function_section st), (in_file_section st),
    (in_total_section st); intros; split; congruence.
Qed.

(** One turn of the loop on a totals line, in the totals section. *)
Lemma step_totals st raw t :
  exclusive st = true -> in_total_section st = true ->
  totals_line raw = Some t -> step st raw = Ok (set_totals st t).
Proof.
  intros Hx Ht H.
  destruct (exclusive_total st Hx Ht) as [Hf Hl].
  unfold totals_line in H. unfold step.
  destruct (classify (strip raw)); try discriminate.
  rewrite Hf, Hl, Ht.
  destruct (pmatch total_pattern (strip raw)) as [g|]; [|discriminate].
  destruct (totals_of_groups g) as [[t'|]|]; try discriminate.
  injection H as ->. reflexivity.
Qed.

Lemma loop_totals ls : forall st raw t,
  exclusive st = true -> in_total_section st = true ->
  Forall (fun x => totals_line x <> None) ls ->
  totals_line raw = Some t ->
  loop st (ls ++ [raw]) = Ok (set_totals st t).
Proof.
  induction ls as [|x ls IH]; intros st raw t Hx Ht Hall H.
  - simpl. now rewrite (step_totals st raw t Hx Ht H).
  - inversion Hall as [|? ? Hx0 Hall']; subst.
    destruct (totals_line x) as [tx|] eqn:E; [|contradiction].
    simpl. rewrite (step_totals st x tx Hx Ht E). simpl.
    rewrite (IH (set_totals st tx) raw t); [reflexivity|exact Hx|exact Ht| |];
      assumption.
Qed.

End TotalsFacts.
Import TotalsFacts.

(** X1.  A text none of whose lines is a section header gives the empty
    report: no function, no file, six zero totals. *)
Lemma parse_no_header output :
  forallb no_header (split_lines output) = true ->
  parse_lizard_output output = Ok empty_report.
Proof.
  intros H. unfold parse_lizard_output, parse_lines.
  now rewrite (loop_no_header _ H).
Qed.

Lemma parse_no_header_witness :
  parse_lizard_output
    (lit "lizard: command not found" ++ LF :: lit "exit 127")
  = Ok empty_report.
Proof.
  exact (parse_no_header
           (lit "lizard: command not found" ++ LF :: lit "exit 127")
           eq_refl).
Defined.

(** C4.  When the lines read in the totals section are several lines that
    each give six totals, the report carries the six values of the last of
    them (and the functions and files read before). *)
Theorem last_totals_line_wins :
  forall pre st ls raw t,
    loop init pre = Ok st -> in_total_section st = true ->
    Forall (fun x => totals_line x <> None) ls ->
    totals_line raw = Some t ->
    parse_lines (pre ++ ls ++ [raw]) = Ok (report_of (set_totals st t)).
Proof.
  intros pre st ls raw t Hpre Ht Hall H.
  unfold parse_lines. rewrite loop_app, Hpre. simpl.
  rewrite (loop_totals ls st raw t); [reflexivity| |assumption..].
  exact (loop_exclusive pre init st Hpre eq_refl).
Qed.

Lemma last_totals_line_wins_witness :
  parse_lines [TOTAL_HEADER; lit "500  10.0  5.0  40.0  20  3";
               lit "620  12.5  6.0  41.0  25  4"]
  = Ok {| functions := []; files := [];
          total_nloc := 620;
          avg_nloc := float_of_decimal 125 1;
          avg_ccn := float_of_decimal 60 1;
          avg_token := float_of_decimal 410 1;
          function_count := 25; warning_count := 4 |}.
Proof.
  refine (last_totals_line_wins [TOTAL_HEADER]
            (set_sections init false false true)
            [lit "500  10.0  5.0  40.0  20  3"]
            (lit "620  12.5  6.0  41.0  25  4")
            {| t_total_nloc := 620;
               t_avg_nloc := float_of_decimal 125 1;
               t_avg_ccn := float_of_decimal 60 1;
               t_avg_token := float_of_decimal 410 1;
               t_function_count := 25; t_warning_count := 4 |}
            eq_refl eq_refl _ eq_refl).
  constructor; [|constructor]. vm_compute. discriminate.
Defined.


(** ** The order of floats *)

Module FloatFacts.

Ltac cmp_cases :=
  repeat match goal with
  | |- context [Z.compare ?a ?b] =>
      let H := fresh in destruct (Z.compare_spec a b) as [H|H|H]
  | |- context [Pos.compare_cont Eq ?a ?b] =>
      change (Pos.compare_cont Eq a b) with (Pos.compare a b);
      let H := fresh in destruct (Pos.compare_spec a b) as [H|H|H]
  end.

Lemma float_ltb_asym a b : float_ltb a b = true -> float_ltb b a = false.
Proof.
  unfold float_ltb, SFltb, SFcompare.
  destruct a as [[]|[]| |[] m1 e1], b as [[]|[]| |[] m2 e2];
    try reflexivity; try discriminate;
    cmp_cases; simpl; try reflexivity; try discriminate; try lia.
Qed.

Lemma float_ltb_negtrans a b c :
  is_nan b = false ->
  float_ltb a c = true -> float_ltb a b = true \/ float_ltb b c = true.
Proof.
  unfold float_ltb, SFltb, SFcompare, is_nan.
  destruct a as [[]|[]| |[] m1 e1], b as [[]|[]| |[] m2 e2],
    c as [[]|[]| |[] m3 e3];
    intros Hb H; try discriminate; try (left; reflexivity);
    try (right; reflexivity);
    revert H; cmp_cases; simpl; intros; try discriminate;
    try (left; reflexivity); try (right; reflexivity); lia.
Qed.

End FloatFacts.
Import FloatFacts.

(** ** [sorted] is a stable sort *)

Module SortFacts.
Section Sort.

Variables A K : Type.
Variable lt : K -> K -> bool.
Variable key : A -> K.
(** The keys on which [<] behaves as an order. *)
Variable ok : K -> bool.

Hypothesis lt_asym : forall a b, lt a b = true -> lt b a = false.
Hypothesis lt_negtrans : forall a b c,
  ok b = true -> lt a c = true -> lt a b = true \/ lt b c = true.

Local Abbreviation asc := (PySort.asc lt key).
Local Abbreviation desc := (PySort.desc lt key).
Local Abbreviation same := (PySort.same lt key).

Lemma insert_perm x l : Permutation (insert lt key x l) (x :: l).
Proof.
  induction l as [|y l IH]; simpl; [reflexivity|].
  destruct (lt (key y) (key x)); [|reflexivity].
  rewrite IH. apply perm_swap.
Qed.

Lemma stable_sort_perm l : Permutation (stable_sort lt key l) l.
Proof.
  induction l as [|x l IH]; simpl; [reflexivity|].
  rewrite insert_perm. now constructor.
Qed.

Lemma insert_sorted x l :
  Forall (fun y => ok (key y) = true) l ->
  StronglySorted asc l -> StronglySorted asc (insert lt key x l).
Proof.
  intros Hok Hs. induction Hs as [|y l Hs IH Hy]; simpl.
  - constructor; constructor.
  - inversion Hok as [|? ? Hoky Hok']; subst.
    destruct (lt (key y) (key x)) eqn:E.
    + constructor; [now apply IH|].
      eapply Permutation_Forall; [symmetry; apply insert_perm|].
      constructor; [|exact Hy]. unfold PySort.asc. now apply lt_asym.
    + constructor; [now constructor|].
      constructor; [exact E|].
      rewrite Forall_forall in *. intros z Hz. unfold PySort.asc.
      destruct (lt (key z) (key x)) eqn:Ez; [|reflexivity].
      destruct (lt_negtrans (key z) (key y) (key x) Hoky Ez) as [H|H].
      * specialize (Hy z Hz). unfold PySort.asc in Hy. congruence.
      * congruence.
Qed.

Lemma stable_sort_sorted l :
  Forall (fun y => ok (key y) = true) l ->
  StronglySorted asc (stable_sort lt key l).
Proof.
  induction l as [|x l IH]; simpl; intros Hok; [constructor|].
  inversion Hok; subst. apply insert_sorted; [|now apply IH].
  eapply Permutation_Forall; [symmetry; apply stable_sort_perm|assumption].
Qed.

Lemma insert_stable k x l :
  ok k = true ->
  filter (same k) (insert lt key x l) = filter (same k) (x :: l).
Proof.
  intros Hk. induction l as [|y l IH]; [reflexivity|].
  cbn [insert]. destruct (lt (key y) (key x)) eqn:E; [|reflexivity].
  cbn [filter] in *. rewrite IH.
  destruct (same k y) eqn:Ey, (same k x) eqn:Ex; try reflexivity.
  exfalso. unfold PySort.same in Ey, Ex.
  apply andb_true_iff in Ey as [Ey _], Ex as [_ Ex].
  apply negb_true_iff in Ey, Ex.
  destruct (lt_negtrans (key y) k (key x) Hk E); congruence.
Qed.

Lemma stable_sort_stable k l :
  ok k = true ->
  filter (same k) (stable_sort lt key l) = filter (same k) l.
Proof.
  intros Hk. induction l as [|x l IH]; [reflexivity|].
  cbn [stable_sort]. rewrite (insert_stable k x _ Hk).
  cbn [filter]. now rewrite IH.
Qed.

Lemma sorted_snoc (R : A -> A -> Prop) l a :
  StronglySorted R l -> Forall (fun x => R x a) l ->
  StronglySorted R (l ++ [a]).
Proof.
  intros Hs. induction Hs as [|y l Hs IH Hy]; intros Ha; simpl.
  - constructor; constructor.
  - inversion Ha; subst. constructor; [now apply IH|].
    apply Forall_app. split; [exact Hy|now constructor].
Qed.

Lemma sorted_rev l : StronglySorted asc l -> StronglySorted desc (rev l).
Proof.
  intros Hs. induction Hs as [|y l Hs IH Hy]; simpl; [constructor|].
  apply sorted_snoc; [exact IH|].
  apply Forall_rev. exact Hy.
Qed.

(** [sorted(l, key=key, reverse=True)] rearranges [l] ... *)
Lemma sorted_reverse_perm l : Permutation (sorted lt key true l) l.
Proof.
  unfold sorted. rewrite <- Permutation_rev, stable_sort_perm.
  symmetry. apply Permutation_rev.
Qed.

(** ... in descending order of the keys ... *)
Lemma sorted_reverse_desc l :
  Forall (fun y => ok (key y) = true) l ->
  StronglySorted desc (sorted lt key true l).
Proof.
  intros Hok. unfold sorted. apply sorted_rev, stable_sort_sorted.
  now apply Forall_rev.
Qed.

(** ... and leaves the elements of one key in the order they had. *)
Lemma sorted_reverse_stable k l :
  ok k = true ->
  filter (same k) (sorted lt key true l) = filter (same k) l.
Proof.
  intros Hk. unfold sorted.
  rewrite filter_rev, (stable_sort_stable k _ Hk), filter_rev.
  apply rev_involutive.
Qed.

End Sort.
End SortFacts.


(** * The claims about the view *)

Module ViewFacts.

Lemma eqb_refl s : Str.eqb s s = true.
Proof. unfold Str.eqb. destruct (list_eq_dec ascii_dec s s); congruence. Qed.

Lemma filter_idem {A} (p : A -> bool) l : filter p (filter p l) = filter p l.
Proof.
  induction l as [|x l IH]; [reflexivity|].
  simpl. destruct (p x) eqn:E; [|exact IH]. simpl. now rewrite E, IH.
Qed.

Lemma filter_functions_spec t fs f :
  In f (filter_functions t fs) <->
  In f fs /\
  (t = []
   \/ (exists p q, lower (fn_name f) = p ++ lower t ++ q)
   \/ (exists p q, lower (fn_file_path f) = p ++ lower t ++ q)).
Proof.
  unfold filter_functions. destruct t as [|c t].
  - split; [intros H; split; [exact H|now left]|now intros [H _]].
  - rewrite filter_In. unfold matches.
    rewrite orb_true_iff, !contains_spec. split.
    + intros [H1 H2]. split; [exact H1|now right].
    + intros [H1 [H2|H2]]; [discriminate|now split].
Qed.

Lemma filter_functions_case t t' fs :
  lower t' = lower t -> filter_functions t' fs = filter_functions t fs.
Proof.
  intros H. unfold filter_functions.
  destruct t as [|c t], t' as [|c' t']; try discriminate; [reflexivity|].
  now rewrite H.
Qed.

Lemma filter_functions_idem t fs :
  filter_functions t (filter_functions t fs) = filter_functions t fs.
Proof.
  unfold filter_functions. destruct t; [reflexivity|apply filter_idem].
Qed.

Lemma Zlt_asym a b : Z.ltb a b = true -> Z.ltb b a = false.
Proof. rewrite Z.ltb_lt, Z.ltb_ge. lia. Qed.

Lemma Zlt_negtrans a b c :
  true = true -> Z.ltb a c = true -> Z.ltb a b = true \/ Z.ltb b c = true.
Proof. rewrite !Z.ltb_lt. lia. Qed.

Lemma same_Z {A} (key : A -> Z) k x : same Z.ltb key k x = (key x =? k)%Z.
Proof.
  unfold same.
  destruct (Z.ltb_spec (key x) k), (Z.ltb_spec k (key x)),
    (Z.eqb_spec (key x) k); simpl; try reflexivity; lia.
Qed.

Lemma same_float a k :
  is_nan a = false -> is_nan k = false ->
  negb (float_ltb a k) && negb (float_ltb k a) = SFeqb a k.
Proof.
  unfold float_ltb, SFltb, SFeqb, SFcompare, is_nan.
  destruct a as [[]|[]| |[] m1 e1], k as [[]|[]| |[] m2 e2];
    intros Ha Hk; try discriminate; try reflexivity;
    cmp_cases; simpl; first [reflexivity | lia].
Qed.

Lemma sorted_impl {A} (R R' : A -> A -> Prop) l :
  (forall a b, R a b -> R' a b) -> StronglySorted R l -> StronglySorted R' l.
Proof.
  intros HR Hs. induction Hs as [|x l Hs IH Hx]; constructor; [exact IH|].
  rewrite Forall_forall in *. intros y Hy. now apply HR, Hx.
Qed.

End ViewFacts.

Import SortFacts ViewFacts.

(** C5.  The filter keeps a function when the filter text is empty or when
    its lower-case form occurs in the lower-case name or in the lower-case
    path; the empty text keeps every function; filtering twice by one text
    is filtering once; two texts with one lower-case form filter alike, as
    [FOO] and [foo] do on a function named [foo_bar]. *)
Theorem filter_case_insensitive :
  forall fs t,
    (forall f,
        In f (filter_functions t fs) <->
        In f fs /\
        (t = []
         \/ (exists p q, lower (fn_name f) = p ++ lower t ++ q)
         \/ (exists p q, lower (fn_file_path f) = p ++ lower t ++ q)))
    /\ filter_functions [] fs = fs
    /\ filter_functions t (filter_functions t fs) = filter_functions t fs
    /\ (forall t', lower t' = lower t ->
                   filter_functions t' fs = filter_functions t fs)
    /\ filter_functions (lit "FOO") (functions sample_report)
       = [sample_function "foo_bar" 3]
    /\ filter_functions (lit "foo") (functions sample_report)
       = [sample_function "foo_bar" 3].
Proof.
  intros fs t. split; [intros f; apply filter_functions_spec|].
  split; [reflexivity|].
  split; [apply filter_functions_idem|].
  split; [intros t'; apply filter_functions_case|].
  split; vm_compute; reflexivity.
Qed.

(** C6.  Under the sort key [ccn] the functions shown are the filtered
    functions, rearranged so that no function comes before one of greater
    [ccn], the functions of one [ccn] staying in the order the filtered
    list has them; the files shown are the files of the report rearranged
    so that no file comes before one of greater [avg_ccn], the files of one
    [avg_ccn] staying in the order of the report.  (No [avg_ccn] is a NaN:
    the parser makes none.) *)
Theorem sort_by_ccn_stable :
  forall r t,
    Forall (fun f => is_nan (fl_avg_ccn f) = false) (files r) ->
    Permutation (fst (project r t CCN)) (filter_functions t (functions r))
    /\ StronglySorted (fun a b => (fn_ccn b <= fn_ccn a)%Z)
         (fst (project r t CCN))
    /\ (forall k,
           filter (fun f => (fn_ccn f =? k)%Z) (fst (project r t CCN))
           = filter (fun f => (fn_ccn f =? k)%Z)
               (filter_functions t (functions r)))
    /\ Permutation (snd (project r t CCN)) (files r)
    /\ StronglySorted
         (fun a b => float_ltb (fl_avg_ccn a) (fl_avg_ccn b) = false)
         (snd (project r t CCN))
    /\ (forall k, is_nan k = false ->
           filter (fun f => SFeqb (fl_avg_ccn f) k) (snd (project r t CCN))
           = filter (fun f => SFeqb (fl_avg_ccn f) k) (files r)).
Proof.
  intros r t Hnan. unfold project, sort_functions, sort_files.
  rewrite eqb_refl. cbn [fst snd].
  split; [apply sorted_reverse_perm|].
  split.
  { apply (sorted_impl (desc Z.ltb fn_ccn)).
    - intros a b H. unfold desc in H. apply Z.ltb_ge in H. exact H.
    - apply (sorted_reverse_desc _ _ Z.ltb fn_ccn (fun _ => true)
               Zlt_asym (fun a b c => Zlt_negtrans a b c)).
      apply Forall_forall. reflexivity. }
  split.
  { intros k.
    rewrite (filter_ext _ (same Z.ltb fn_ccn k))
      by (intros f; symmetry; apply same_Z).
    rewrite (filter_ext (fun f => (fn_ccn f =? k)%Z) (same Z.ltb fn_ccn k))
      by (intros f; symmetry; apply same_Z).
    apply (sorted_reverse_stable _ _ Z.ltb fn_ccn (fun _ => true)
             (fun a b c => Zlt_negtrans a b c)). reflexivity. }
  split; [apply sorted_reverse_perm|].
  split.
  { apply (sorted_reverse_desc _ _ float_ltb fl_avg_ccn
             (fun x => negb (is_nan x)) float_ltb_asym).
    - intros a b c Hb. apply float_ltb_negtrans. now apply negb_true_iff.
    - eapply Forall_impl; [|exact Hnan]. intros f Hf. simpl.
      now rewrite Hf. }
  intros k Hk.
  assert (forall l,
             Forall (fun f => is_nan (fl_avg_ccn f) = false) l ->
             filter (fun f => SFeqb (fl_avg_ccn f) k) l
             = filter (same float_ltb fl_avg_ccn k) l) as Hsame.
  { intros l Hl. apply filter_ext_in. intros f Hf.
    rewrite Forall_forall in Hl. symmetry.
    apply same_float; [now apply Hl|exact Hk]. }
  rewrite (Hsame (files r) Hnan), Hsame.
  - apply (sorted_reverse_stable _ _ float_ltb fl_avg_ccn
             (fun x => negb (is_nan x))).
    + intros a b c Hb. apply float_ltb_negtrans. now apply negb_true_iff.
    + now rewrite Hk.
  - eapply Permutation_Forall; [|exact Hnan].
    symmetry. apply sorted_reverse_perm.
Qed.

(** The four functions of [ccn] 3, 9, 9, 1: the two of [ccn] 9 come first,
    in their order, then the one of [ccn] 3, then the one of [ccn] 1. *)
Example sort_by_ccn_sample :
  map fn_name (fst (project sample_report [] CCN))
  = [lit "b"; lit "c"; lit "foo_bar"; lit "d"]
  /\ map fl_file_path (snd (project sample_report [] CCN))
     = [lit "src/b.py"; lit "src/a.py"; lit "src/c.py"].
Proof. split; vm_compute; reflexivity. Qed.

Lemma sort_by_ccn_stable_witness :
  Permutation (fst (project sample_report [] CCN))
    (filter_functions [] (functions sample_report))
  /\ StronglySorted (fun a b => (fn_ccn b <= fn_ccn a)%Z)
       (fst (project sample_report [] CCN))
  /\ (forall k,
         filter (fun f => (fn_ccn f =? k)%Z)
           (fst (project sample_report [] CCN))
         = filter (fun f => (fn_ccn f =? k)%Z)
             (filter_functions [] (functions sample_report)))
  /\ Permutation (snd (project sample_report [] CCN)) (files sample_report)
  /\ StronglySorted
       (fun a b => float_ltb (fl_avg_ccn a) (fl_avg_ccn b) = false)
       (snd (project sample_report [] CCN))
  /\ (forall k, is_nan k = false ->
         filter (fun f => SFeqb (fl_avg_ccn f) k)
           (snd (project sample_report [] CCN))
         = filter (fun f => SFeqb (fl_avg_ccn f) k) (files sample_report)).
Proof.
  apply (sort_by_ccn_stable sample_report []).
  repeat constructor.
Defined.

(** C7.  The files shown do not depend on the filter text: not in the
    projection of a report, and not in the files table after the filter
    input changes. *)
Theorem files_not_filtered :
  forall r k t1 t2 app,
    snd (project r t1 k) = snd (project r t2 k)
    /\ files_table (update_tables (set_filter_text app t1))
       = files_table (update_tables (set_filter_text app t2)).
Proof.
  intros r k t1 t2 app. split; [reflexivity|].
  unfold update_tables. cbn [result set_filter_text].
  destruct (result app); reflexivity.
Qed.


(** * The claim about the code window *)

Module PreviewFacts.



Lemma enumerate_snd {A} (l : list A) : forall k,
  map snd (enumerate l k) = l.
Proof.
  induction l as [|x l IH]; intros k; simpl; [|rewrite IH]; reflexivity.
Qed.

End PreviewFacts.
Import PreviewFacts.




(** * The claims about the session *)

Module SessionFacts.

Lemma do_analysis_frame run_lizard app path app' :
  do_analysis run_lizard app path = Ok app' ->
  workers app' = workers app /\ started app' = started app
  /\ is_loading app' = is_loading app.
Proof.
  unfold do_analysis, analysis_complete, analysis_error, pop_screen.
  destruct (output <- run_lizard path ;; parse_lizard_output output)
    as [r|e];
    destruct (screen_stack app) as [|sc st]; simpl;
    intros H; try discriminate; injection H as <-; simpl; auto.
Qed.

Lemma handle_inv run_lizard app ev app' :
  handle run_lizard app ev = Ok app' -> inv app -> inv app'.
Proof.
  unfold inv. intros H [Hl Hw]. destruct ev; simpl in H.
  - injection H as <-. simpl. split; [exact Hl|].
    apply Forall_app. split.
    + apply Forall_map. eapply Forall_impl; [|exact Hw]. simpl. lia.
    + constructor; [simpl; lia|constructor].
  - destruct (find_worker app id) as [w|]; [|injection H as <-; now split].
    apply do_analysis_frame in H as [-> [-> ->]]. simpl. split; [exact Hl|].
    apply Forall_forall. intros w' Hin. apply filter_In in Hin as [Hin _].
    rewrite Forall_forall in Hw. now apply Hw.
  - injection H as <-. unfold update_tables. simpl.
    destruct (result app); simpl; now split.
  - injection H as <-. unfold update_tables. simpl.
    destruct (result app); simpl; now split.
  - injection H as <-. unfold update_tables. simpl.
    destruct (result app); simpl; now split.
  - injection H as <-. unfold update_tables. simpl.
    destruct (result app); simpl; now split.
  - injection H as <-. unfold update_tables. simpl.
    destruct (result app); simpl; now split.
Qed.

Lemma run_events_inv run_lizard evs : forall app app',
  run_events run_lizard app evs = Ok app' -> inv app -> inv app'.
Proof.
  induction evs as [|ev evs IH]; simpl; intros app app' H Hi.
  - now injection H as <-.
  - destruct (handle run_lizard app ev) as [app1|] eqn:E; [|discriminate].
    simpl in H. apply (IH _ _ H). exact (handle_inv _ _ _ _ E Hi).
Qed.

Lemma inv_mounted : inv mounted.
Proof. split; [reflexivity|constructor]. Qed.

(** The worker just started is the one its identifier finds. *)
Lemma find_started ws n w :
  Forall (fun x => w_id x <= n) ws -> w_id w = S n ->
  find (fun x => w_id x =? S n) (map cancel ws ++ [w]) = Some w.
Proof.
  intros Hws Hw. induction Hws as [|x ws Hx Hws IH]; simpl.
  - now rewrite Hw, Nat.eqb_refl.
  - assert ((w_id x =? S n) = false) as -> by (apply Nat.eqb_neq; lia).
    exact IH.
Qed.

End SessionFacts.
Import SessionFacts.

(** C9.  When the job of a submitted path fails (the analyzer raises, or
    the parser does), the worker's callback returns without raising, the
    status bar holds the message of the exception after [Error: ], the
    report and the tables are what they were before the path was
    submitted, the loading screen pushed at submission is popped, and
    [is_loading] is false. *)
Theorem job_failure_reported :
  forall run_lizard evs app path e,
    run_events run_lizard mounted evs = Ok app ->
    (output <- run_lizard path ;; parse_lizard_output output) = Raise e ->
    exists app',
      run_events run_lizard app [Submit path; Finish (S (started app))]
      = Ok app'
      /\ result app' = result app
      /\ displayed_functions app' = displayed_functions app
      /\ functions_table app' = functions_table app
      /\ files_table app' = files_table app
      /\ status_bar app' = lit "Error: " ++ exn_str e
      /\ screen_stack app' = screen_stack app
      /\ is_loading app' = false.
Proof.
  intros run_lizard evs app path e Hrun He.
  destruct (run_events_inv _ _ _ _ Hrun inv_mounted) as [Hl Hw].
  cbn [run_events handle bind].
  unfold find_worker, run_analysis, start_worker.
  cbn [workers started set_workers push_screen set_screen_stack].
  rewrite (find_started (workers app) (started app)
             {| w_id := S (started app); w_path := path;
                is_cancelled := false |} Hw eq_refl).
  cbn [w_path]. unfold do_analysis. rewrite He.
  unfold analysis_error, pop_screen, remove_worker. cbn.
  eexists. split; [reflexivity|]. cbn. repeat split. exact Hl.
Qed.

Lemma job_failure_reported_witness :
  exists app',
    run_events missing_lizard mounted [Submit (lit "src"); Finish 1]
    = Ok app'
    /\ result app' = result mounted
    /\ displayed_functions app' = displayed_functions mounted
    /\ functions_table app' = functions_table mounted
    /\ files_table app' = files_table mounted
    /\ status_bar app'
       = lit "Error: "
         ++ exn_str
              (OSError (lit "[Errno 2] No such file or directory: 'lizard'"))
    /\ screen_stack app' = screen_stack mounted
    /\ is_loading app' = false.
Proof.
  exact (job_failure_reported missing_lizard [] mounted (lit "src")
           (OSError (lit "[Errno 2] No such file or directory: 'lizard'"))
           eq_refl eq_refl).
Defined.

(** A worker that calls back commits its report, cancelled or not: the
    callback never looks at the flag. *)
Lemma finish_commits run_lizard app id w r :
  find_worker app id = Some w ->
  (output <- run_lizard (w_path w) ;; parse_lizard_output output) = Ok r ->
  screen_stack app <> [] ->
  exists app',
    handle run_lizard app (Finish id) = Ok app' /\ result app' = Some r.
Proof.
  intros Hf Hr Hs. cbn [handle]. rewrite Hf.
  unfold do_analysis. rewrite Hr.
  unfold analysis_complete, pop_screen, remove_worker.
  cbn [screen_stack set_workers].
  destruct (screen_stack app) as [|sc st]; [contradiction|].
  cbn. eexists. split; reflexivity.
Qed.

(** C3.  A late result does commit.  The path [a] is submitted, then the
    path [b]; the worker of [b] calls back first and the report is that of
    [b], the worker of [a] being cancelled and still running; when it
    calls back the report becomes that of [a]. *)
Theorem stale_result_commits :
  (app <- run_events two_lizard mounted
            [Submit (lit "a"); Submit (lit "b"); Finish 2] ;;
   Ok (result app, workers app))
  = Ok (Some report_b,
        [{| w_id := 1; w_path := lit "a"; is_cancelled := true |}])
  /\ (app <- run_events two_lizard mounted
               [Submit (lit "a"); Submit (lit "b"); Finish 2; Finish 1] ;;
      Ok (result app, workers app))
     = Ok (Some report_a, [])
  /\ report_a <> report_b.
Proof.
  split; [vm_compute; reflexivity|].
  split; [vm_compute; reflexivity|]. discriminate.
Qed.

(** * More about the parser *)

Module ShapeFacts.

Lemma first_some_some {A B} (f : A -> option B) l b :
  first_some f l = Some b -> exists a, In a l /\ f a = Some b.
Proof.
  induction l as [|a l IH]; simpl; [discriminate|].
  destruct (f a) eqn:E.
  - intros H; injection H as <-. exists a. split; [now left|exact E].
  - intros H. destruct (IH H) as [a' [Hin Ha]]. exists a'. split;
      [now right|exact Ha].
Qed.

Lemma firstn_below_run cls s k :
  k <= run cls s -> forallb cls (firstn k s) = true /\ length (firstn k s) = k.
Proof.
  revert k; induction s as [|c s IH]; intros k Hk; simpl in Hk.
  - assert (k = 0) by lia. subst. now split.
  - destruct k as [|k]; [now split|].
    destruct (cls c) eqn:E; [|lia].
    destruct (IH k) as [H1 H2]; [lia|]. simpl. now rewrite E, H1, H2.
Qed.

(** Whatever the search finds, the groups have the shape the pattern
    gives them. *)
Lemma exec_groups p : forall pos s caps r,
  exec p pos s caps = Some r ->
  exists gs, r = rev caps ++ gs /\ groups_ok p gs.
Proof.
  induction p as [|n p IH]; intros pos s caps r H.
  - simpl in H. injection H as <-. exists []. now rewrite app_nil_r.
  - destruct n as [| |c|cap cls lo greedy].
    + cbn [exec] in H. destruct (pos =? 0); [|discriminate].
      exact (IH _ _ _ _ H).
    + cbn [exec] in H. destruct s as [|c [|c' s]]; try discriminate.
      * exact (IH _ _ _ _ H).
      * destruct (Ascii.eqb c LF); [|discriminate]. exact (IH _ _ _ _ H).
    + cbn [exec] in H. destruct s as [|c' s]; [discriminate|].
      destruct (Ascii.eqb c c'); [|discriminate]. exact (IH _ _ _ _ H).
    + change (exec (Rep cap cls lo greedy :: p) pos s caps)
        with (first_some
                (fun k => exec p (pos + k) (skipn k s)
                            (if cap then firstn k s :: caps else caps))
                (candidates greedy lo (run cls s))) in H.
      apply first_some_some in H as [k [Hk H]].
      apply in_candidates in Hk.
      destruct (IH _ _ _ _ H) as [gs [-> Hgs]].
      destruct cap.
      * exists (firstn k s :: gs). split.
        { simpl. now rewrite <- app_assoc. }
        destruct (firstn_below_run cls s k) as [H1 H2]; [lia|].
        cbn [groups_ok]. rewrite H2. repeat split; [exact H1|lia|exact Hgs].
      * exists gs. split; [reflexivity|exact Hgs].
Qed.

Lemma pmatch_groups p s r : pmatch p s = Some r -> groups_ok p r.
Proof.
  intros H. destruct (exec_groups p 0 s [] r H) as [gs [-> Hgs]]. exact Hgs.
Qed.

Lemma digit_val_nonneg c : isdigit c = true -> (0 <= digit_val c <= 9)%Z.
Proof.
  unfold isdigit, digit_val. cbv zeta. generalize (code c). intros n H.
  apply andb_true_iff in H as [H1 H2]. apply Nat.leb_le in H1, H2. lia.
Qed.

Lemma fold_digits_nonneg s : forall a,
  forallb isdigit s = true -> (0 <= a)%Z ->
  (0 <= fold_left (fun acc c => (10 * acc + digit_val c)%Z) s a)%Z.
Proof.
  induction s as [|c s IH]; intros a Hs Ha; cbn [fold_left]; [exact Ha|].
  cbn [forallb] in Hs. apply andb_true_iff in Hs as [Hc Hs].
  apply IH; [exact Hs|]. pose proof (digit_val_nonneg c Hc). lia.
Qed.

Lemma int_of_digits_nonneg s :
  forallb isdigit s = true -> (0 <= int_of_digits s)%Z.
Proof. intros H. apply fold_digits_nonneg; [exact H|lia]. Qed.

Lemma iter_pos_inv {A} (P : A -> Prop) (f : A -> A) :
  (forall x, P x -> P (f x)) -> forall n x, P x -> P (iter_pos f n x).
Proof.
  intros Hf. induction n as [n IH|n IH|]; intros x Hx; simpl.
  - apply IH, IH, Hf, Hx.
  - apply IH, IH, Hx.
  - apply Hf, Hx.
Qed.

Lemma shr_1_nonneg mrs : (0 <= shr_m mrs)%Z -> (0 <= shr_m (shr_1 mrs))%Z.
Proof.
  destruct mrs as [m r s]. simpl.
  destruct m as [|[p|p|]|[p|p|]]; simpl; lia.
Qed.

Lemma shr_nonneg mrs e n :
  (0 <= shr_m mrs)%Z -> (0 <= shr_m (fst (shr mrs e n)))%Z.
Proof.
  intros H. unfold shr. destruct n; simpl; try exact H.
  apply (iter_pos_inv (fun x => (0 <= shr_m x)%Z)); [|exact H].
  apply shr_1_nonneg.
Qed.

Lemma shr_fexp_nonneg m e l :
  (0 <= m)%Z -> (0 <= shr_m (fst (shr_fexp prec emax m e l)))%Z.
Proof.
  intros H. unfold shr_fexp. apply shr_nonneg. now destruct l as [|[]].
Qed.

Lemma round_nonneg m l : (0 <= m)%Z -> (0 <= round_nearest_even m l)%Z.
Proof.
  intros H. unfold round_nearest_even.
  destruct l as [|[]]; try destruct (Z.even m); lia.
Qed.

(** Rounding a non-negative mantissa gives no NaN and no sign. *)
Lemma binary_round_nonneg m e l :
  (0 <= m)%Z -> float_nonneg (binary_round_aux prec emax false m e l) = true.
Proof.
  intros H. unfold binary_round_aux.
  pose proof (shr_fexp_nonneg m e l H) as H1.
  destruct (shr_fexp prec emax m e l) as [mrs' e'].
  simpl in H1.
  pose proof (shr_fexp_nonneg
                (round_nearest_even (shr_m mrs') (loc_of_shr_record mrs'))
                e' loc_Exact (round_nonneg _ _ H1)) as H2.
  destruct (shr_fexp prec emax _ e' loc_Exact) as [mrs'' e''].
  simpl in H2. destruct (shr_m mrs''); [reflexivity| |lia].
  now destruct (e'' <=? emax - prec)%Z.
Qed.

Lemma float_of_decimal_nonneg m k :
  float_nonneg (float_of_decimal m k) = true.
Proof.
  unfold float_of_decimal. destruct m as [|p|p]; try reflexivity.
  unfold SFdiv_core_binary.
  destruct (Z.div_eucl _ _) as [q r] eqn:E.
  apply binary_round_nonneg.
  match type of E with Z.div_eucl ?a ?b = _ =>
    assert (q = a / b)%Z as -> by (unfold Z.div; now rewrite E);
    apply Z.div_pos; [|lia]
  end.
  destruct (_ - _ - _)%Z; try lia. apply Z.shiftl_nonneg. lia.
Qed.

Lemma float_of_str_nonneg s x :
  float_of_str s = Ok x -> float_nonneg x = true.
Proof.
  unfold float_of_str. destruct (split_dot s) as [ip fp].
  destruct (_ && _); [|discriminate].
  intros H; injection H as <-. apply float_of_decimal_nonneg.
Qed.


Lemma function_of_groups_wf g f :
  groups_ok func_pattern g -> function_of_groups g = Some f ->
  wf_function f.
Proof.
  unfold func_pattern, ws0, ws1, num, lazy_name, rest. cbn [groups_ok].
  destruct g as [|g1 [|g2 [|g3 [|g4 [|g5 [|g6 [|g7 [|g8 [|g9 [|x g]]]]]]]]]];
    try (intros; tauto); cbn [function_of_groups]; try discriminate.
  intros H E. decompose [and] H. clear H.
  injection E as <-. unfold wf_function. cbn.
  repeat split; try (now apply int_of_digits_nonneg); try assumption.
  - destruct g6; [simpl in *; lia|discriminate].
  - destruct g9; [simpl in *; lia|discriminate].
Qed.

Lemma bind_ok {A B} (c : outcome A) (k : A -> outcome B) b :
  (x <- c ;; k x) = Ok b -> exists a, c = Ok a /\ k a = Ok b.
Proof. destruct c as [a|e]; simpl; [now exists a|discriminate]. Qed.

Lemma file_of_groups_wf g f :
  groups_ok file_pattern g -> file_of_groups g = Ok (Some f) -> wf_file f.
Proof.
  unfold file_pattern, ws0, ws1, num, dec, rest. cbn [groups_ok].
  destruct g as [|g1 [|g2 [|g3 [|g4 [|g5 [|g6 [|x g]]]]]]];
    try (intros; tauto); cbn [file_of_groups]; try discriminate.
  intros H E. decompose [and] H. clear H.
  apply bind_ok in E as [a [Ea E]]. apply bind_ok in E as [b [Eb E]].
  apply bind_ok in E as [c [Ec E]]. injection E as <-.
  unfold wf_file. cbn.
  repeat split; try (now apply int_of_digits_nonneg);
    try (eapply float_of_str_nonneg; eassumption); try assumption.
  destruct g6; [simpl in *; lia|discriminate].
Qed.

Lemma totals_of_groups_wf g t :
  groups_ok total_pattern g -> totals_of_groups g = Ok (Some t) ->
  (0 <= t_total_nloc t)%Z /\ (0 <= t_function_count t)%Z
  /\ (0 <= t_warning_count t)%Z
  /\ float_nonneg (t_avg_nloc t) = true
  /\ float_nonneg (t_avg_ccn t) = true
  /\ float_nonneg (t_avg_token t) = true.
Proof.
  unfold total_pattern, ws0, ws1, num, dec. cbn [groups_ok].
  destruct g as [|g1 [|g2 [|g3 [|g4 [|g5 [|g6 [|x g]]]]]]];
    try (intros; tauto); cbn [totals_of_groups]; try discriminate.
  intros H E. decompose [and] H. clear H.
  apply bind_ok in E as [a [Ea E]]. apply bind_ok in E as [b [Eb E]].
  apply bind_ok in E as [c [Ec E]]. injection E as <-. cbn.
  repeat split; try (now apply int_of_digits_nonneg);
    eapply float_of_str_nonneg; eassumption.
Qed.

Lemma step_wf st raw st' :
  step st raw = Ok st' -> wf_report (report_of st) ->
  wf_report (report_of st').
Proof.
  unfold step. destruct (classify (strip raw)).
  1-5: intros H; injection H as <-; exact (fun e => e).
  destruct (in_function_section st).
  { destruct (pmatch func_pattern (strip raw)) as [g|] eqn:Eg;
      [|intros H; injection H as <-; exact (fun e => e)].
    destruct (function_of_groups g) as [f|] eqn:Ef;
      intros H; injection H as <-; [|exact (fun e => e)].
    intros [Hf Hr]. split; [|exact Hr]. cbn.
    apply Forall_app. split; [exact Hf|]. constructor; [|constructor].
    exact (function_of_groups_wf g f (pmatch_groups _ _ _ Eg) Ef). }
  destruct (in_file_section st).
  { destruct (pmatch file_pattern (strip raw)) as [g|] eqn:Eg;
      [|intros H; injection H as <-; exact (fun e => e)].
    intros H. apply bind_ok in H as [[f|] [Ef H]];
      injection H as <-; [|exact (fun e => e)].
    intros [Hf [Hl Hr]]. split; [exact Hf|]. split; [|exact Hr]. cbn.
    apply Forall_app. split; [exact Hl|]. constructor; [|constructor].
    exact (file_of_groups_wf g f (pmatch_groups _ _ _ Eg) Ef). }
  destruct (in_total_section st).
  { destruct (pmatch total_pattern (strip raw)) as [g|] eqn:Eg;
      [|intros H; injection H as <-; exact (fun e => e)].
    intros H. apply bind_ok in H as [[t|] [Et H]];
      injection H as <-; [|exact (fun e => e)].
    intros [Hf [Hl _]]. split; [exact Hf|]. split; [exact Hl|]. cbn.
    exact (totals_of_groups_wf g t (pmatch_groups _ _ _ Eg) Et). }
  intros H; injection H as <-; exact (fun e => e).
Qed.

Lemma loop_wf lines : forall st st',
  loop st lines = Ok st' -> wf_report (report_of st) ->
  wf_report (report_of st').
Proof.
  induction lines as [|l ls IH]; simpl; intros st st' H Hw.
  - now injection H as <-.
  - apply bind_ok in H as [st1 [E H]].
    exact (IH _ _ H (step_wf _ _ _ E Hw)).
Qed.

End ShapeFacts.
Import ShapeFacts.

(** X2.  Every report the parser returns is well formed: the integers of
    its functions, files and totals are not negative, its floats are zero,
    positive or plus infinity (never a NaN), and the names and paths are
    not empty and hold no line feed. *)
Theorem parse_well_formed :
  forall output r, parse_lizard_output output = Ok r -> wf_report r.
Proof.
  intros output r H. unfold parse_lizard_output, parse_lines in H.
  apply bind_ok in H as [st [E H]]. injection H as <-.
  apply (loop_wf _ _ _ E). unfold wf_report. cbn.
  repeat split; try constructor; lia.
Qed.

Lemma parse_well_formed_witness : wf_report report_a.
Proof.
  exact (parse_well_formed
           (FUNCTION_HEADER ++ LF :: lit "10  3  45  2  12  foo@5-16@a/x.py")
           report_a eq_refl).
Defined.

Module RaiseFacts.







End RaiseFacts.
Import RaiseFacts.





Module FileLineFacts.

(** A captured field and the whitespace after it are taken whole when no
    whitespace is in the class of the field and what follows starts with
    no whitespace. *)
Lemma exec_field_ws cls d w s p caps res :
  (forall c, isspace c = true -> cls c = false) ->
  forallb cls d = true -> 1 <= length d -> is_blank w = true ->
  match s with [] => True | x :: _ => isspace x = false end ->
  (forall q, exec p q s (d :: caps) = Some res) ->
  forall q,
    exec (Rep true cls 1 true :: ws1 :: p) q (d ++ w ++ s) caps = Some res.
Proof.
  intros Hcls Hd Hd1 Hw Hs Hp q.
  apply is_blank_spec in Hw as [Hw [c [w' [Ew Hc]]]].
  assert (run cls (d ++ w ++ s) = length d) as Er.
  { apply run_app; [exact Hd|]. rewrite Ew. simpl. now apply Hcls. }
  apply exec_greedy_whole; rewrite Er; [exact Hd1|].
  rewrite skipn_length_app, firstn_length_app.
  assert (run isspace (w ++ s) = length w) as Ew'.
  { now apply run_app. }
  apply exec_greedy_whole; rewrite Ew'.
  - rewrite Ew; simpl; lia.
  - rewrite skipn_length_app. apply Hp.
Qed.

Lemma space_not_decimal c : isspace c = true -> digit_or_dot c = false.
Proof.
  destruct c as [[] [] [] [] [] [] [] []]; vm_compute; congruence.
Qed.

Lemma is_decimal_field_spec x :
  is_decimal_field x = true ->
  forallb digit_or_dot x = true /\ 1 <= length x.
Proof. destruct x; simpl; [discriminate|]. intros H; split; [exact H|lia]. Qed.

(** The match of [file_pattern] on a file line. *)
Lemma file_pattern_match d1 w1 x2 w2 x3 w3 x4 w4 d5 w5 c t :
  is_number d1 = true -> is_blank w1 = true ->
  is_decimal_field x2 = true -> is_blank w2 = true ->
  is_decimal_field x3 = true -> is_blank w3 = true ->
  is_decimal_field x4 = true -> is_blank w4 = true ->
  is_number d5 = true -> is_blank w5 = true ->
  isspace c = false -> forallb dot (c :: t) = true ->
  pmatch file_pattern (file_line d1 w1 x2 w2 x3 w3 x4 w4 d5 w5 (c :: t))
  = Some [d1; x2; x3; x4; d5; c :: t].
Proof.
  intros D1 W1 X2 W2 X3 W3 X4 W4 D5 W5 Hc Hdot.
  pose proof (is_decimal_field_spec _ X2) as [X2a X2b].
  pose proof (is_decimal_field_spec _ X3) as [X3a X3b].
  pose proof (is_decimal_field_spec _ X4) as [X4a X4b].
  assert (forall x s, is_decimal_field x = true ->
            match x ++ s with [] => True | y :: _ => isspace y = false end)
    as Hhead.
  { intros [|y x] s Hx; [discriminate|]. simpl in *.
    apply andb_true_iff in Hx as [Hy _].
    destruct (isspace y) eqn:E; [|reflexivity].
    apply space_not_decimal in E. congruence. }
  unfold pmatch, file_pattern, file_line.
  apply exec_bol_ws0; [now apply head_number|].
  apply exec_num_ws; [assumption|assumption|now apply Hhead|].
  intros q1. apply (exec_field_ws digit_or_dot);
    [exact space_not_decimal|assumption..|now apply Hhead|].
  intros q2. apply (exec_field_ws digit_or_dot);
    [exact space_not_decimal|assumption..|now apply Hhead|].
  intros q3. apply (exec_field_ws digit_or_dot);
    [exact space_not_decimal|assumption..|now apply head_number|].
  intros q4. apply exec_num_ws; [assumption|assumption|exact Hc|].
  intros q5. now rewrite exec_rest_eol.
Qed.

Lemma strip_file_line d1 w1 x2 w2 x3 w3 x4 w4 d5 w5 c t :
  is_number d1 = true -> isspace (last (c :: t) c) = false ->
  strip (file_line d1 w1 x2 w2 x3 w3 x4 w4 d5 w5 (c :: t))
  = file_line d1 w1 x2 w2 x3 w3 x4 w4 d5 w5 (c :: t).
Proof. exact (strip_function_line d1 w1 x2 w2 x3 w3 x4 w4 d5 w5 c t). Qed.

End FileLineFacts.
Import FileLineFacts.

(** X5.  While the parser is in the file section, a data line made of a
    number, three decimals and a number, each followed by whitespace, and
    of a path adds to the files the metric with these six values; the path
    is the rest of the line, whitespace inside it included.  (The path
    starts and ends with no whitespace and holds no line feed; the three
    decimals are ones [float()] accepts.) *)
Theorem file_line_parsed :
  forall pre st d1 w1 x2 w2 x3 w3 x4 w4 d5 w5 c t a b m,
    loop init pre = Ok st -> in_file_section st = true ->
    is_number d1 = true -> is_blank w1 = true ->
    is_decimal_field x2 = true -> is_blank w2 = true ->
    is_decimal_field x3 = true -> is_blank w3 = true ->
    is_decimal_field x4 = true -> is_blank w4 = true ->
    is_number d5 = true -> is_blank w5 = true ->
    float_of_str x2 = Ok a -> float_of_str x3 = Ok b ->
    float_of_str x4 = Ok m ->
    isspace c = false -> forallb dot (c :: t) = true ->
    isspace (last (c :: t) c) = false ->
    classify (file_line d1 w1 x2 w2 x3 w3 x4 w4 d5 w5 (c :: t)) = Data ->
    parse_lines (pre ++ [file_line d1 w1 x2 w2 x3 w3 x4 w4 d5 w5 (c :: t)])
    = Ok (report_of
            (add_file st
               {| fl_nloc := int_of_digits d1; fl_avg_nloc := a;
                  fl_avg_ccn := b; fl_avg_token := m;
                  fl_function_count := int_of_digits d5;
                  fl_file_path := c :: t |})).
Proof.
  intros pre st d1 w1 x2 w2 x3 w3 x4 w4 d5 w5 c t a b m
    Hpre Hst D1 W1 X2 W2 X3 W3 X4 W4 D5 W5 Ea Eb Em Hc Hdot Hlast Hk.
  apply (parse_lines_snoc pre st _ _ Hpre).
  assert (exclusive st = true) as Hx
    by exact (loop_exclusive pre init st Hpre eq_refl).
  assert (in_function_section st = false) as Hf.
  { unfold exclusive in Hx. rewrite Hst in Hx.
    destruct (in_function_section st); [discriminate|reflexivity]. }
  unfold step.
  rewrite strip_file_line by assumption.
  rewrite Hk, Hf, Hst.
  rewrite file_pattern_match by assumption.
  cbn [file_of_groups]. rewrite Ea, Eb, Em. reflexivity.
Qed.

Lemma file_line_parsed_witness :
  parse_lines [FILE_HEADER; lit "120  8.5  4.2  30.1  6  src/a.py"]
  = Ok {| functions := [];
          files :=
            [{| fl_nloc := 120; fl_avg_nloc := float_of_decimal 85 1;
                fl_avg_ccn := float_of_decimal 42 1;
                fl_avg_token := float_of_decimal 301 1;
                fl_function_count := 6; fl_file_path := lit "src/a.py" |}];
          total_nloc := 0; avg_nloc := float_zero; avg_ccn := float_zero;
          avg_token := float_zero; function_count := 0;
          warning_count := 0 |}.
Proof.
  exact (file_line_parsed [FILE_HEADER] (set_sections init false true false)
           (lit "120") (lit "  ") (lit "8.5") (lit "  ") (lit "4.2")
           (lit "  ") (lit "30.1") (lit "  ") (lit "6") (lit "  ")
           "s"%char (lit "rc/a.py")
           (float_of_decimal 85 1) (float_of_decimal 42 1)
           (float_of_decimal 301 1)
           eq_refl eq_refl eq_refl eq_refl eq_refl eq_refl eq_refl eq_refl
           eq_refl eq_refl eq_refl eq_refl eq_refl eq_refl eq_refl
           eq_refl eq_refl eq_refl eq_refl).
Defined.

(** A path with whitespace in it is kept whole. *)
Example file_line_path_with_spaces :
  parse_lines [FILE_HEADER; lit "12 1.0 2.0 3.0 4 my dir/a b.py"]
  = Ok {| functions := [];
          files :=
            [{| fl_nloc := 12; fl_avg_nloc := float_of_decimal 10 1;
                fl_avg_ccn := float_of_decimal 20 1;
                fl_avg_token := float_of_decimal 30 1;
                fl_function_count := 4;
                fl_file_path := lit "my dir/a b.py" |}];
          total_nloc := 0; avg_nloc := float_zero; avg_ccn := float_zero;
          avg_token := float_zero; function_count := 0;
          warning_count := 0 |}.
Proof. vm_compute. reflexivity. Qed.

Module LineFacts.

Lemma lstrip_spaces w s : forallb isspace w = true -> lstrip (w ++ s) = lstrip s.
Proof.
  unfold lstrip. induction w as [|c w IH]; simpl; [reflexivity|].
  rewrite andb_true_iff. intros [-> H]. now apply IH.
Qed.

Lemma rstrip_spaces w s : forallb isspace w = true -> rstrip (s ++ w) = rstrip s.
Proof.
  intros H. unfold rstrip. rewrite rev_app_distr.
  fold (lstrip (rev w ++ rev s)). rewrite lstrip_spaces; [reflexivity|].
  rewrite forallb_forall in *. intros x Hx. apply H. now apply in_rev.
Qed.

Lemma lstrip_all_spaces s : forallb isspace s = true -> lstrip s = [].
Proof.
  intros H. rewrite <- (app_nil_r s). now rewrite lstrip_spaces.
Qed.

(** Either the text is all whitespace, or its [lstrip] starts with a
    character that is none and is a suffix of it. *)
Lemma lstrip_app s w :
  lstrip (s ++ w) = lstrip s ++ w \/ forallb isspace s = true.
Proof.
  unfold lstrip. induction s as [|c s IH]; simpl; [now right|].
  destruct (isspace c); simpl; [exact IH|now left].
Qed.

Lemma strip_padded raw raw' : padded raw raw' -> strip raw' = strip raw.
Proof.
  intros [w1 [w2 [H1 [H2 ->]]]]. unfold strip.
  rewrite lstrip_spaces by exact H1.
  destruct (lstrip_app raw w2) as [->|Hall].
  - now apply rstrip_spaces.
  - rewrite (lstrip_all_spaces raw Hall).
    rewrite lstrip_all_spaces; [reflexivity|].
    rewrite forallb_app. now rewrite Hall, H2.
Qed.

Lemma step_strip st raw raw' :
  strip raw' = strip raw -> step st raw' = step st raw.
Proof. intros H. unfold step. now rewrite H. Qed.

Lemma loop_padded lines : forall lines' st,
  Forall2 padded lines lines' -> loop st lines' = loop st lines.
Proof.
  induction lines as [|l ls IH]; intros lines' st H; inversion H; subst;
    [reflexivity|].
  cbn [loop]. rewrite (step_strip st l y) by now apply strip_padded.
  destruct (step st l); simpl; [now apply IH|reflexivity].
Qed.


(** What one turn of the loop has read is kept, in front. *)
Lemma step_extends st raw st' :
  step st raw = Ok st' ->
  exists fs fl,
    l_functions st' = l_functions st ++ fs
    /\ l_files st' = l_files st ++ fl.
Proof.
  unfold step. destruct (classify (strip raw)).
  1-5: intros H; injection H as <-; exists [], []; cbn;
       now rewrite !app_nil_r.
  destruct (in_function_section st).
  { destruct (pmatch func_pattern (strip raw)) as [g|];
      [destruct (function_of_groups g) as [f|]|];
      intros H; injection H as <-;
      [exists [f], []|exists [], []|exists [], []]; cbn;
      now rewrite ?app_nil_r. }
  destruct (in_file_section st).
  { destruct (pmatch file_pattern (strip raw)) as [g|];
      [|intros H; injection H as <-; exists [], [];
        now rewrite !app_nil_r].
    intros H. apply bind_ok in H as [[f|] [_ H]]; injection H as <-;
      [exists [], [f]|exists [], []]; cbn; now rewrite ?app_nil_r. }
  destruct (in_total_section st).
  { destruct (pmatch total_pattern (strip raw)) as [g|];
      [|intros H; injection H as <-; exists [], [];
        now rewrite !app_nil_r].
    intros H. apply bind_ok in H as [[f|] [_ H]]; injection H as <-;
      exists [], []; cbn; now rewrite ?app_nil_r. }
  intros H; injection H as <-; exists [], []; now rewrite !app_nil_r.
Qed.

Lemma loop_extends lines : forall st st',
  loop st lines = Ok st' ->
  exists fs fl,
    l_functions st' = l_functions st ++ fs
    /\ l_files st' = l_files st ++ fl.
Proof.
  induction lines as [|l ls IH]; intros st st' H; cbn [loop] in H.
  - injection H as <-. exists [], []. now rewrite !app_nil_r.
  - apply bind_ok in H as [st1 [E H]].
    destruct (step_extends _ _ _ E) as [fs1 [fl1 [H1 H2]]].
    destruct (IH _ _ H) as [fs2 [fl2 [H3 H4]]].
    exists (fs1 ++ fs2), (fl1 ++ fl2).
    now rewrite H3, H4, H1, H2, !app_assoc.
Qed.

End LineFacts.
Import LineFacts.



(** X7.  Whitespace in front of a line and behind it never matters: two
    lists of lines that differ only by such whitespace give the same
    report or the same exception.  So a text with carriage returns before
    its line feeds parses as the text without them. *)
Theorem padding_ignored :
  forall lines lines',
    Forall2 padded lines lines' -> parse_lines lines' = parse_lines lines.
Proof.
  intros lines lines' H. unfold parse_lines. now rewrite (loop_padded lines).
Qed.

Lemma padding_ignored_witness :
  parse_lines [FUNCTION_HEADER ++ [CR];
               lit "   10  3  45  2  12  foo@5-16@a/x.py" ++ [CR]]
  = parse_lines [FUNCTION_HEADER; lit "10  3  45  2  12  foo@5-16@a/x.py"].
Proof.
  apply padding_ignored.
  constructor; [|constructor; [|constructor]].
  - exists [], [CR]. now rewrite app_nil_l.
  - exists (lit "   "), [CR]. repeat split.
Defined.

(** X8.  The parser only appends: the functions and the files read from
    the first lines of a text stay, in their order, at the front of the
    functions and files read from the whole text. *)
Theorem parse_appends :
  forall first more r,
    parse_lines (first ++ more) = Ok r ->
    exists r1 fs fl,
      parse_lines first = Ok r1
      /\ functions r = functions r1 ++ fs
      /\ files r = files r1 ++ fl.
Proof.
  intros first more r H. unfold parse_lines in *.
  rewrite loop_app in H.
  destruct (loop init first) as [st1|e]; [|discriminate].
  cbn [bind] in H. apply bind_ok in H as [st [E H]]. injection H as <-.
  destruct (loop_extends _ _ _ E) as [fs [fl [H1 H2]]].
  exists (report_of st1), fs, fl. cbn. auto.
Qed.

Lemma parse_appends_witness :
  exists r1 fs fl,
    parse_lines [FUNCTION_HEADER; lit "10  3  45  2  12  foo@5-16@a/x.py"]
    = Ok r1
    /\ functions
         {| functions :=
              functions report_a ++ functions report_b;
            files := []; total_nloc := 0; avg_nloc := float_zero;
            avg_ccn := float_zero; avg_token := float_zero;
            function_count := 0; warning_count := 0 |}
       = functions r1 ++ fs
    /\ files
         {| functions :=
              functions report_a ++ functions report_b;
            files := []; total_nloc := 0; avg_nloc := float_zero;
            avg_ccn := float_zero; avg_token := float_zero;
            function_count := 0; warning_count := 0 |}
       = files r1 ++ fl.
Proof.
  exact (parse_appends
           [FUNCTION_HEADER; lit "10  3  45  2  12  foo@5-16@a/x.py"]
           [lit "7  1  20  0  8  bar@1-8@b/y.py"] _ eq_refl).
Defined.

(** * More about the view *)

Module OrderFacts.

Lemma code_inj x y : code x = code y -> x = y.
Proof.
  unfold code. intros H.
  rewrite <- (ascii_nat_embedding x), <- (ascii_nat_embedding y).
  now rewrite H.
Qed.

Lemma ltb_cons x a y b :
  Str.ltb (x :: a) (y :: b)
  = (code x <? code y) || ((code x =? code y) && Str.ltb a b).
Proof. reflexivity. Qed.

Lemma str_ltb_asym a : forall b, Str.ltb a b = true -> Str.ltb b a = false.
Proof.
  induction a as [|x a IH]; intros [|y b]; try reflexivity; try discriminate.
  rewrite !ltb_cons. generalize (code x), (code y). intros n m H.
  apply orb_true_iff in H as [H|H].
  - apply Nat.ltb_lt in H.
    assert ((m <? n) = false) as -> by (apply Nat.ltb_ge; lia).
    assert ((m =? n) = false) as -> by (apply Nat.eqb_neq; lia).
    reflexivity.
  - apply andb_true_iff in H as [H1 H2]. apply Nat.eqb_eq in H1. subst m.
    rewrite Nat.ltb_irrefl, Nat.eqb_refl. simpl. now apply IH.
Qed.

Lemma str_ltb_negtrans a : forall b c,
  Str.ltb a c = true -> Str.ltb a b = true \/ Str.ltb b c = true.
Proof.
  induction a as [|x a IH]; intros [|y b] [|z c] H; try discriminate;
    try (now left); try (now right).
  rewrite !ltb_cons in *. revert H.
  generalize (code x), (code y), (code z). intros n m k H.
  destruct (Nat.ltb_spec n m) as [Hnm|Hnm]; [now left|].
  destruct (Nat.ltb_spec m k) as [Hmk|Hmk]; [now right|].
  apply orb_true_iff in H as [H|H]; [apply Nat.ltb_lt in H; lia|].
  apply andb_true_iff in H as [H1 H2]. apply Nat.eqb_eq in H1. subst k.
  assert (n = m) by lia. subst m. rewrite Nat.eqb_refl. simpl.
  now apply IH.
Qed.

Lemma str_ltb_irrefl a : Str.ltb a a = false.
Proof.
  destruct (Str.ltb a a) eqn:E; [|reflexivity].
  pose proof (str_ltb_asym a a E). congruence.
Qed.

(** Two strings neither of which is smaller are the same string. *)
Lemma str_same a : forall b,
  Str.ltb a b = false -> Str.ltb b a = false -> a = b.
Proof.
  induction a as [|x a IH]; intros [|y b]; try reflexivity; try discriminate.
  rewrite !ltb_cons. intros H1 H2.
  apply orb_false_iff in H1 as [H1 H1'], H2 as [H2 H2'].
  apply Nat.ltb_ge in H1, H2.
  assert (code x = code y) as E by lia.
  rewrite E, Nat.eqb_refl in H1', H2'. simpl in *.
  f_equal; [now apply code_inj|now apply IH].
Qed.

Lemma same_str {A} (key : A -> str) k x :
  same Str.ltb key k x = Str.eqb (key x) k.
Proof.
  unfold same, Str.eqb.
  destruct (list_eq_dec ascii_dec (key x) k) as [->|Hne].
  - now rewrite str_ltb_irrefl.
  - destruct (Str.ltb (key x) k) eqn:E1; [reflexivity|].
    destruct (Str.ltb k (key x)) eqn:E2; [reflexivity|].
    exfalso. apply Hne. now apply str_same.
Qed.

End OrderFacts.
Import OrderFacts.

Module SortMore.
Section Sort.

Variables A K : Type.
Variable lt : K -> K -> bool.
Variable key : A -> K.

Hypothesis lt_asym : forall a b, lt a b = true -> lt b a = false.
Hypothesis lt_negtrans : forall a b c,
  lt a c = true -> lt a b = true \/ lt b c = true.

Local Abbreviation asc := (PySort.asc lt key).

Lemma all_ok (l : list A) : Forall (fun y => (fun _ : K => true) (key y) = true) l.
Proof. apply Forall_forall. reflexivity. Qed.

Lemma sort_sorted l : StronglySorted asc (stable_sort lt key l).
Proof.
  apply (stable_sort_sorted A K lt key (fun _ => true) lt_asym
           (fun a b c _ => lt_negtrans a b c)), all_ok.
Qed.

(** In front of a list none of whose elements is smaller, [x] is put
    first. *)
Lemma insert_first x l :
  Forall (fun z => lt (key z) (key x) = false) l ->
  insert lt key x l = x :: l.
Proof.
  intros H. destruct l as [|y l]; [reflexivity|].
  inversion H; subst. cbn [insert].
  now match goal with E : lt _ _ = false |- _ => rewrite E end.
Qed.

Lemma filter_insert p x l :
  StronglySorted asc l ->
  filter p (insert lt key x l)
  = if p x then insert lt key x (filter p l) else filter p l.
Proof.
  intros Hs. induction Hs as [|y l Hs IH Hy]; [simpl; now destruct (p x)|].
  cbn [insert]. destruct (lt (key y) (key x)) eqn:E.
  - cbn [filter]. rewrite IH.
    destruct (p y), (p x); try reflexivity.
    cbn [insert]. now rewrite E.
  - cbn [filter]. destruct (p x); [|reflexivity].
    rewrite insert_first; [reflexivity|].
    assert (Forall (fun z => lt (key z) (key x) = false) (y :: l)) as Hall.
    { constructor; [exact E|].
      rewrite Forall_forall in *. intros z Hz.
      destruct (lt (key z) (key x)) eqn:Ez; [|reflexivity].
      destruct (lt_negtrans (key z) (key y) (key x) Ez) as [H|H].
      - specialize (Hy z Hz). unfold PySort.asc in Hy. congruence.
      - congruence. }
    rewrite Forall_forall in *. intros z Hz.
    apply Hall. change (In z (filter p (y :: l))) in Hz.
    now apply filter_In in Hz as [Hz _].
Qed.

(** Filtering a sorted list is sorting the filtered list. *)
Lemma filter_stable_sort p l :
  filter p (stable_sort lt key l) = stable_sort lt key (filter p l).
Proof.
  induction l as [|x l IH]; [reflexivity|].
  cbn [stable_sort filter]. rewrite filter_insert by apply sort_sorted.
  rewrite IH. now destruct (p x).
Qed.

Lemma filter_sorted p reverse l :
  filter p (sorted lt key reverse l) = sorted lt key reverse (filter p l).
Proof.
  unfold sorted. destruct reverse; [|apply filter_stable_sort].
  now rewrite filter_rev, filter_stable_sort, filter_rev.
Qed.

End Sort.
End SortMore.
Import SortMore.

Lemma eqb_neq a b : a <> b -> Str.eqb a b = false.
Proof.
  intros H. unfold Str.eqb.
  destruct (list_eq_dec ascii_dec a b); [contradiction|reflexivity].
Qed.

(** X9.  Filtering and sorting commute, for every sort key and every
    filter text: the functions shown under a filter are the functions
    shown without it, the ones that do not match left out.  A filter hides
    rows and never reorders the others. *)
Theorem filter_sort_commute :
  forall k t fs,
    sort_functions k (filter_functions t fs)
    = filter_functions t (sort_functions k fs).
Proof.
  intros k t fs. unfold filter_functions.
  destruct t as [|c t]; [reflexivity|].
  unfold sort_functions.
  destruct (Str.eqb k CCN);
    [symmetry; apply (filter_sorted _ _ Z.ltb fn_ccn Zlt_asym
                        (fun a b c => Zlt_negtrans a b c eq_refl))|].
  destruct (Str.eqb k NLOC);
    [symmetry; apply (filter_sorted _ _ Z.ltb fn_nloc Zlt_asym
                        (fun a b c => Zlt_negtrans a b c eq_refl))|].
  destruct (Str.eqb k NAME); [|reflexivity].
  symmetry.
  apply (filter_sorted _ _ Str.ltb (fun f => lower (fn_name f))
           str_ltb_asym str_ltb_negtrans).
Qed.

(** X10.  Under the sort key [nloc] the functions shown are the filtered
    functions and the files shown are the files of the report, each list
    rearranged so that no entry comes before one of greater [nloc], the
    entries of one [nloc] staying in the order they had. *)
Theorem sort_by_nloc_stable :
  forall r t,
    Permutation (fst (project r t NLOC)) (filter_functions t (functions r))
    /\ StronglySorted (fun a b => (fn_nloc b <= fn_nloc a)%Z)
         (fst (project r t NLOC))
    /\ (forall k,
           filter (fun f => (fn_nloc f =? k)%Z) (fst (project r t NLOC))
           = filter (fun f => (fn_nloc f =? k)%Z)
               (filter_functions t (functions r)))
    /\ Permutation (snd (project r t NLOC)) (files r)
    /\ StronglySorted (fun a b => (fl_nloc b <= fl_nloc a)%Z)
         (snd (project r t NLOC))
    /\ (forall k,
           filter (fun f => (fl_nloc f =? k)%Z) (snd (project r t NLOC))
           = filter (fun f => (fl_nloc f =? k)%Z) (files r)).
Proof.
  intros r t. unfold project, sort_functions, sort_files.
  rewrite (eqb_neq NLOC CCN) by discriminate.
  rewrite eqb_refl. cbn [fst snd].
  assert (forall (A : Type) (key : A -> Z) (l : list A),
             Permutation (sorted Z.ltb key true l) l
             /\ StronglySorted (fun a b => (key b <= key a)%Z)
                  (sorted Z.ltb key true l)
             /\ (forall k,
                    filter (fun f => (key f =? k)%Z) (sorted Z.ltb key true l)
                    = filter (fun f => (key f =? k)%Z) l)) as H.
  { intros A key l. split; [apply sorted_reverse_perm|]. split.
    - apply (sorted_impl (desc Z.ltb key)).
      + intros a b H. unfold desc in H. now apply Z.ltb_ge in H.
      + apply (sorted_reverse_desc _ _ Z.ltb key (fun _ => true)
                 Zlt_asym (fun a b c => Zlt_negtrans a b c)).
        apply Forall_forall. reflexivity.
    - intros k.
      rewrite (filter_ext _ (same Z.ltb key k))
        by (intros f; symmetry; apply same_Z).
      rewrite (filter_ext (fun f => (key f =? k)%Z) (same Z.ltb key k))
        by (intros f; symmetry; apply same_Z).
      apply (sorted_reverse_stable _ _ Z.ltb key (fun _ => true)
               (fun a b c => Zlt_negtrans a b c)). reflexivity. }
  destruct (H _ fn_nloc (filter_functions t (functions r))) as [H1 [H2 H3]].
  destruct (H _ fl_nloc (files r)) as [H4 [H5 H6]].
  repeat split; assumption.
Qed.

(** X11.  Under the sort key [name] the functions shown are the filtered
    functions in ascending order of their lower-case names, and the files
    shown are the files in ascending order of their lower-case paths (code
    point order); entries with one lower-case name, or path, stay in the
    order they had. *)
Theorem sort_by_name_stable :
  forall r t,
    Permutation (fst (project r t NAME)) (filter_functions t (functions r))
    /\ StronglySorted
         (fun a b => Str.ltb (lower (fn_name b)) (lower (fn_name a)) = false)
         (fst (project r t NAME))
    /\ (forall k,
           filter (fun f => Str.eqb (lower (fn_name f)) k)
             (fst (project r t NAME))
           = filter (fun f => Str.eqb (lower (fn_name f)) k)
               (filter_functions t (functions r)))
    /\ Permutation (snd (project r t NAME)) (files r)
    /\ StronglySorted
         (fun a b =>
            Str.ltb (lower (fl_file_path b)) (lower (fl_file_path a)) = false)
         (snd (project r t NAME))
    /\ (forall k,
           filter (fun f => Str.eqb (lower (fl_file_path f)) k)
             (snd (project r t NAME))
           = filter (fun f => Str.eqb (lower (fl_file_path f)) k) (files r)).
Proof.
  intros r t. unfold project, sort_functions, sort_files.
  rewrite (eqb_neq NAME CCN), (eqb_neq NAME NLOC) by discriminate.
  rewrite eqb_refl. cbn [fst snd]. unfold sorted.
  assert (forall (A : Type) (key : A -> str) (l : list A),
             Permutation (stable_sort Str.ltb key l) l
             /\ StronglySorted (fun a b => Str.ltb (key b) (key a) = false)
                  (stable_sort Str.ltb key l)
             /\ (forall k,
                    filter (fun f => Str.eqb (key f) k)
                      (stable_sort Str.ltb key l)
                    = filter (fun f => Str.eqb (key f) k) l)) as H.
  { intros A key l. split; [apply stable_sort_perm|]. split.
    - apply (stable_sort_sorted _ _ Str.ltb key (fun _ => true)
               str_ltb_asym (fun a b c _ => str_ltb_negtrans a b c)).
      apply Forall_forall. reflexivity.
    - intros k.
      rewrite (filter_ext _ (same Str.ltb key k))
        by (intros f; symmetry; apply same_str).
      rewrite (filter_ext (fun f => Str.eqb (key f) k) (same Str.ltb key k))
        by (intros f; symmetry; apply same_str).
      apply (stable_sort_stable _ _ Str.ltb key (fun _ => true)
               (fun a b c _ => str_ltb_negtrans a b c)). reflexivity. }
  destruct (H _ (fun f => lower (fn_name f))
              (filter_functions t (functions r))) as [H1 [H2 H3]].
  destruct (H _ (fun f => lower (fl_file_path f)) (files r))
    as [H4 [H5 H6]].
  repeat split; assumption.
Qed.

(** Upper case does not sort before lower case: [B] goes between [a] and
    [c]. *)
Example sort_by_name_sample :
  map fn_name
    (sort_functions NAME
       [sample_function "c" 1; sample_function "B" 2; sample_function "a" 3;
        sample_function "b" 4])
  = [lit "a"; lit "B"; lit "b"; lit "c"].
Proof. vm_compute. reflexivity. Qed.

(** * More about the session *)

Module SessionMore.

Lemma handle_consistent run_lizard app ev app' :
  handle run_lizard app ev = Ok app' -> consistent app -> consistent app'.
Proof.
  unfold consistent. destruct ev; cbn [handle].
  - intros H; injection H as <-. cbn. exact (fun e => e).
  - destruct (find_worker app id) as [w|];
      [|intros H; injection H as <-; exact (fun e => e)].
    unfold do_analysis, analysis_complete, analysis_error, pop_screen,
      remove_worker.
    cbn [screen_stack set_workers].
    destruct (output <- run_lizard (w_path w) ;; parse_lizard_output output)
      as [r|e];
      destruct (screen_stack app) as [|sc st]; cbn;
      intros H; try discriminate; injection H as <-; cbn;
      [auto|exact (fun e => e)].
  - intros H; injection H as <-. unfold update_tables. cbn.
    destruct (result app) as [r|] eqn:E; cbn; rewrite ?E; cbn; tauto.
  - intros H; injection H as <-. unfold update_tables. cbn.
    destruct (result app) as [r|] eqn:E; cbn; rewrite ?E; cbn; tauto.
  - intros H; injection H as <-. unfold update_tables. cbn.
    destruct (result app) as [r|] eqn:E; cbn; rewrite ?E; cbn; tauto.
  - intros H; injection H as <-. unfold update_tables. cbn.
    destruct (result app) as [r|] eqn:E; cbn; rewrite ?E; cbn; tauto.
  - intros H; injection H as <-. unfold update_tables. cbn.
    destruct (result app) as [r|] eqn:E; cbn; rewrite ?E; cbn; tauto.
Qed.

Lemma map_id_cancel ws : map w_id (map cancel ws) = map w_id ws.
Proof. rewrite map_map. now apply map_ext. Qed.

Lemma NoDup_map_filter {A B} (f : A -> B) p l :
  NoDup (map f l) -> NoDup (map f (filter p l)).
Proof.
  induction l as [|x l IH]; simpl; intros H; [constructor|].
  inversion H as [|? ? Hx Hl]; subst.
  destruct (p x); [|now apply IH]. simpl. constructor; [|now apply IH].
  intros Hin. apply Hx. apply in_map_iff in Hin as [y [E Hy]].
  apply filter_In in Hy as [Hy _]. apply in_map_iff. now exists y.
Qed.

(** Taking out the worker of an identifier that one worker has takes out
    one worker. *)
Lemma length_remove ws w :
  NoDup (map w_id ws) -> In w ws ->
  S (length (filter (fun x => negb (w_id x =? w_id w)) ws)) = length ws.
Proof.
  induction ws as [|x ws IH]; simpl; intros Hn Hin; [contradiction|].
  inversion Hn as [|? ? Hx Hws]; subst.
  destruct Hin as [->|Hin].
  - rewrite Nat.eqb_refl. simpl. f_equal.
    assert (filter (fun x => negb (w_id x =? w_id w)) ws = ws) as ->;
      [|reflexivity].
    apply forallb_filter_id. apply forallb_forall. intros y Hy.
    apply negb_true_iff, Nat.eqb_neq. intros E. apply Hx.
    rewrite <- E. now apply in_map.
  - assert ((w_id x =? w_id w) = false) as ->.
    { apply Nat.eqb_neq. intros E. apply Hx. rewrite E. now apply in_map. }
    simpl. f_equal. now apply IH.
Qed.

Lemma handle_balanced run_lizard app ev :
  balanced app ->
  exists app', handle run_lizard app ev = Ok app' /\ balanced app'.
Proof.
  unfold balanced. intros [Hlen [Hnd Hle]]. destruct ev; cbn [handle];
    try (eexists; split; [reflexivity|];
         unfold update_tables; cbn; destruct (result app); cbn;
         now repeat split).
  - eexists. split; [reflexivity|]. cbn.
    rewrite length_app, length_map, map_app, map_id_cancel. cbn.
    split; [lia|]. split.
    + apply NoDup_app; [exact Hnd|repeat constructor; now intros []|].
      intros a Ha [<-|[]]. apply in_map_iff in Ha as [w [E Hw]].
      rewrite Forall_forall in Hle. specialize (Hle w Hw). lia.
    + apply Forall_app. split.
      * apply Forall_map. eapply Forall_impl; [|exact Hle]. cbn. lia.
      * repeat constructor.
  - destruct (find_worker app id) as [w|] eqn:Ef;
      [|exists app; now repeat split].
    apply find_some in Ef as [Hin Eid]. apply Nat.eqb_eq in Eid. subst id.
    pose proof (length_remove _ _ Hnd Hin) as Hrm.
    destruct (screen_stack app) as [|sc st] eqn:Es;
      [simpl in Hlen; rewrite <- Hlen in Hrm; discriminate|].
    unfold do_analysis, analysis_complete, analysis_error, pop_screen,
      remove_worker.
    cbn [screen_stack set_workers]. rewrite Es.
    assert (length st
            = length (filter (fun x => negb (w_id x =? w_id w))
                        (workers app))) as Hst.
    { simpl in Hlen. lia. }
    assert (NoDup (map w_id (filter (fun x => negb (w_id x =? w_id w))
                               (workers app)))) as Hnd'
      by now apply NoDup_map_filter.
    assert (Forall (fun x => w_id x <= started app)
              (filter (fun x => negb (w_id x =? w_id w)) (workers app)))
      as Hle'.
    { apply Forall_forall. intros x Hx. apply filter_In in Hx as [Hx _].
      rewrite Forall_forall in Hle. now apply Hle. }
    destruct (output <- run_lizard (w_path w) ;; parse_lizard_output output)
      as [r|e]; cbn; eexists; (split; [reflexivity|]); cbn;
      now repeat split.
Qed.

Lemma run_events_ok run_lizard evs : forall app,
  balanced app ->
  exists app', run_events run_lizard app evs = Ok app' /\ balanced app'.
Proof.
  induction evs as [|ev evs IH]; intros app Hb; cbn [run_events].
  - now exists app.
  - destruct (handle_balanced run_lizard app ev Hb) as [app1 [-> Hb1]].
    cbn [bind]. now apply IH.
Qed.

Lemma run_events_consistent run_lizard evs : forall app app',
  run_events run_lizard app evs = Ok app' -> consistent app ->
  consistent app'.
Proof.
  induction evs as [|ev evs IH]; intros app app' H Hc; cbn [run_events] in H.
  - now injection H as <-.
  - apply bind_ok in H as [app1 [E H]].
    exact (IH _ _ H (handle_consistent _ _ _ _ E Hc)).
Qed.

End SessionMore.
Import SessionMore.

(** X12.  Whatever the user does and the workers bring, the tables show
    the projection of the current report under the current filter text and
    sort key, and the summary pane shows that report; with no report yet
    they show nothing. *)
Theorem tables_follow_state :
  forall run_lizard evs app,
    run_events run_lizard mounted evs = Ok app -> consistent app.
Proof.
  intros run_lizard evs app H.
  apply (run_events_consistent _ _ _ _ H). cbn. now repeat split.
Qed.

Lemma tables_follow_state_witness :
  exists app,
    run_events two_lizard mounted
      [Submit (lit "a"); FilterChanged (lit "FOO"); Finish 1; SortName]
    = Ok app
    /\ consistent app.
Proof.
  eexists. split; [vm_compute; reflexivity|].
  apply (tables_follow_state two_lizard
           [Submit (lit "a"); FilterChanged (lit "FOO"); Finish 1;
            SortName]).
  vm_compute. reflexivity.
Defined.

(** X13.  No sequence of these events makes a handler raise, whatever the
    analyzer does and in whatever order the workers call back; and after
    it there is one loading screen on the stack for each worker that has
    not called back. *)
Theorem session_never_raises :
  forall run_lizard evs,
    exists app,
      run_events run_lizard mounted evs = Ok app
      /\ length (screen_stack app) = length (workers app).
Proof.
  intros run_lizard evs.
  destruct (run_events_ok run_lizard evs mounted) as [app [H [Hl _]]].
  - repeat split; constructor.
  - now exists app.
Qed.

(** X14.  When the job of a submitted path succeeds, the worker's callback
    commits its report: the report is the current one, the tables show its
    projection under the filter text and the sort key in force, which the
    commit leaves as they were, the summary pane shows the report, the
    status bar counts the files of the report and gives its function
    count, and the loading screen pushed at submission is popped. *)
Theorem job_success_committed :
  forall run_lizard evs app path r,
    run_events run_lizard mounted evs = Ok app ->
    (output <- run_lizard path ;; parse_lizard_output output) = Ok r ->
    exists app',
      run_events run_lizard app [Submit path; Finish (S (started app))]
      = Ok app'
      /\ result app' = Some r
      /\ functions_table app'
         = sort_functions (current_sort app)
             (filter_functions (filter_text app) (functions r))
      /\ displayed_functions app' = Some (functions_table app')
      /\ files_table app' = sort_files (current_sort app) (files r)
      /\ summary_pane app' = Some r
      /\ status_bar app'
         = lit "Analyzed " ++ Str.of_nat (length (files r))
           ++ lit " files, " ++ Str.of_Z (function_count r)
           ++ lit " functions"
      /\ filter_text app' = filter_text app
      /\ current_sort app' = current_sort app
      /\ screen_stack app' = screen_stack app.
Proof.
  intros run_lizard evs app path r Hrun Hr.
  destruct (run_events_inv _ _ _ _ Hrun inv_mounted) as [_ Hw].
  cbn [run_events handle bind].
  unfold find_worker, run_analysis, start_worker.
  cbn [workers started set_workers push_screen set_screen_stack].
  rewrite (find_started (workers app) (started app)
             {| w_id := S (started app); w_path := path;
                is_cancelled := false |} Hw eq_refl).
  cbn [w_path]. unfold do_analysis. rewrite Hr.
  unfold analysis_complete, pop_screen, remove_worker. cbn.
  eexists. split; [reflexivity|]. cbn. now repeat split.
Qed.

Lemma job_success_committed_witness :
  exists app',
    run_events two_lizard mounted [Submit (lit "a"); Finish 1] = Ok app'
    /\ result app' = Some report_a
    /\ functions_table app'
       = sort_functions (current_sort mounted)
           (filter_functions (filter_text mounted) (functions report_a))
    /\ displayed_functions app' = Some (functions_table app')
    /\ files_table app' = sort_files (current_sort mounted) (files report_a)
    /\ summary_pane app' = Some report_a
    /\ status_bar app'
       = lit "Analyzed " ++ Str.of_nat (length (files report_a))
         ++ lit " files, " ++ Str.of_Z (function_count report_a)
         ++ lit " functions"
    /\ filter_text app' = filter_text mounted
    /\ current_sort app' = current_sort mounted
    /\ screen_stack app' = screen_stack mounted.
Proof.
  exact (job_success_committed two_lizard [] mounted (lit "a") report_a
           eq_refl eq_refl).
Defined.

(** * The loading screen and the summary pane *)

Module LoadingFacts.

Lemma py_slice_tail {A} (l : list A) (k : nat) :
  k <= length l -> 0 < k ->
  py_slice l (- Z.of_nat k) (Z.of_nat (length l)) = skipn (length l - k) l.
Proof.
  intros Hk H0. unfold py_slice.
  replace (- Z.of_nat k <? 0)%Z with true by (symmetry; apply Z.ltb_lt; lia).
  replace (Z.of_nat (length l) <? 0)%Z with false
    by (symmetry; apply Z.ltb_ge; lia).
  rewrite Z.min_id.
  replace (Z.max 0 (- Z.of_nat k + Z.of_nat (length l)))
    with (Z.of_nat (length l - k)) by lia.
  rewrite Nat2Z.id.
  apply firstn_all2. rewrite length_skipn. lia.
Qed.

End LoadingFacts.
Import LoadingFacts.

(** X15.  The path shown on the loading screen never has more than 34
    characters: a path of at most 33 characters is shown as it is, and a
    longer one, also one of exactly 34 characters, is shown as three dots
    and its last 31 characters. *)
Theorem display_path_fits :
  forall path,
    length (display_path path) <= 34
    /\ ((length path <= 33 /\ display_path path = path)
        \/ (34 <= length path
            /\ display_path path
               = lit "..." ++ skipn (length path - 31) path
            /\ length (display_path path) = 34)).
Proof.
  intros path. unfold display_path.
  destruct (Z.ltb_spec (Z.of_nat (length path)) 34) as [H|H].
  - split; [lia|]. left. split; [lia|reflexivity].
  - change (-31)%Z with (- Z.of_nat 31)%Z.
    rewrite (py_slice_tail path 31) by lia.
    assert (length (lit "..." ++ skipn (length path - 31) path) = 34) as E.
    { rewrite length_app, length_skipn. cbn [lit list_ascii_of_string length].
      lia. }
    split; [lia|]. right. split; [lia|]. split; [reflexivity|exact E].
Qed.

Module SummaryFacts.

Lemma count_acc (c : FunctionMetrics -> bool) fs : forall n : Z,
  fold_left (fun n f => if c f then (n + 1)%Z else n) fs n
  = (n + Z.of_nat (length (filter c fs)))%Z.
Proof.
  induction fs as [|f fs IH]; intros n; simpl; [lia|].
  rewrite IH. destruct (c f); simpl; lia.
Qed.

Lemma count_filter c fs : count c fs = Z.of_nat (length (filter c fs)).
Proof. unfold count. now rewrite count_acc. Qed.

Lemma length_filter4 {A} (a b c d : A -> bool) l :
  (forall x, In x l ->
     (if a x then 1 else 0) + (if b x then 1 else 0)
     + (if c x then 1 else 0) + (if d x then 1 else 0) = 1) ->
  length (filter a l) + length (filter b l) + length (filter c l)
  + length (filter d l) = length l.
Proof.
  induction l as [|x l IH]; intros H; [reflexivity|].
  specialize (IH (fun y Hy => H y (or_intror Hy))).
  specialize (H x (or_introl eq_refl)). simpl.
  destruct (a x), (b x), (c x), (d x); simpl in *; lia.
Qed.

End SummaryFacts.
Import SummaryFacts.

(** X16.  The four counters of the summary pane split the functions of the
    report: they add up to the number of functions, each counts the
    functions of one [complexity_level], and the CCN cell of a function's
    row in the table has the colour of the counter of its level (bold only
    for critical). *)
Theorem distribution_partition :
  forall r,
    (low_count r + medium_count r + high_count r + critical_count r
     = total r)%Z
    /\ low_count r = Z.of_nat (length (of_level low r))
    /\ medium_count r = Z.of_nat (length (of_level medium r))
    /\ high_count r = Z.of_nat (length (of_level high r))
    /\ critical_count r = Z.of_nat (length (of_level critical r))
    /\ (forall f,
          level_style (complexity_level f) = lit "bold " ++ ccn_style f
          \/ (complexity_level f = critical
              /\ level_style critical = ccn_style f)).
Proof.
  intros r.
  unfold low_count, medium_count, high_count, critical_count, total, of_level.
  rewrite !count_filter.
  split.
  { rewrite <- !Nat2Z.inj_add. f_equal. apply length_filter4.
    intros f _.
    destruct (Z.leb_spec (fn_ccn f) 5), (Z.ltb_spec 5 (fn_ccn f)),
      (Z.leb_spec (fn_ccn f) 10), (Z.ltb_spec 10 (fn_ccn f)),
      (Z.leb_spec (fn_ccn f) 15), (Z.ltb_spec 15 (fn_ccn f));
      simpl; lia. }
  repeat split.
  1-4: f_equal; f_equal; apply filter_ext; intros f;
       unfold complexity_level;
       destruct (Z.leb_spec (fn_ccn f) 5), (Z.ltb_spec 5 (fn_ccn f)),
         (Z.leb_spec (fn_ccn f) 10), (Z.ltb_spec 10 (fn_ccn f)),
         (Z.leb_spec (fn_ccn f) 15), (Z.ltb_spec 15 (fn_ccn f));
       simpl; try reflexivity; lia.
  intros f. unfold complexity_level, ccn_style.
  destruct (fn_ccn f <=? 5)%Z; [now left|].
  destruct (fn_ccn f <=? 10)%Z; [now left|].
  destruct (fn_ccn f <=? 15)%Z; [now left|]. now right.
Qed.

(** * Copying the critical functions *)

Module ClipboardFacts.

Lemma is_critical_spec f :
  is_critical f = true
  <-> complexity_level f = critical
      /\ contains (lit "test") (lower (fn_file_path f)) = false.
Proof.
  unfold is_critical, complexity_level.
  rewrite andb_true_iff, negb_true_iff, Z.ltb_lt.
  destruct (Z.leb_spec (fn_ccn f) 5) as [L5|L5];
    [split; intros [A B]; [lia|discriminate]|].
  destruct (Z.leb_spec (fn_ccn f) 10) as [L10|L10];
    [split; intros [A B]; [lia|discriminate]|].
  destruct (Z.leb_spec (fn_ccn f) 15) as [L15|L15];
    [split; intros [A B]; [lia|discriminate]|].
  split; intros [A B]; split; try reflexivity; try assumption; lia.
Qed.

Lemma critical_perm r :
  Permutation (critical_functions r) (filter is_critical (functions r)).
Proof. apply sorted_reverse_perm. Qed.

Lemma critical_nil r :
  critical_functions r = [] <-> filter is_critical (functions r) = [].
Proof.
  split; intros H.
  - apply Permutation_nil. rewrite <- H. apply critical_perm.
  - apply Permutation_nil. rewrite <- H. symmetry. apply critical_perm.
Qed.

End ClipboardFacts.
Import ClipboardFacts.

(** X17.  The functions copied are the functions of the report whose
    [complexity_level] is critical and whose lower-cased path does not
    contain [test], each as often as the report has it, the greatest [ccn]
    first, and those of one [ccn] in the order of the report. *)
Theorem copy_critical_selection :
  forall r,
    Permutation (critical_functions r) (filter is_critical (functions r))
    /\ (forall f,
          In f (critical_functions r)
          <-> In f (functions r)
              /\ complexity_level f = critical
              /\ contains (lit "test") (lower (fn_file_path f)) = false)
    /\ StronglySorted (fun a b => (fn_ccn b <= fn_ccn a)%Z)
         (critical_functions r)
    /\ (forall k,
          filter (fun f => (fn_ccn f =? k)%Z) (critical_functions r)
          = filter (fun f => (fn_ccn f =? k)%Z)
              (filter is_critical (functions r))).
Proof.
  intros r. split; [apply critical_perm|]. split.
  { intros f. rewrite <- is_critical_spec, <- filter_In. split; intros H.
    - eapply Permutation_in; [apply critical_perm|exact H].
    - eapply Permutation_in; [symmetry; apply critical_perm|exact H]. }
  split.
  { apply (sorted_impl (desc Z.ltb fn_ccn)).
    - intros a b H. unfold desc in H. apply Z.ltb_ge in H. exact H.
    - apply (sorted_reverse_desc _ _ Z.ltb fn_ccn (fun _ => true)
               Zlt_asym (fun a b c => Zlt_negtrans a b c)).
      apply Forall_forall. reflexivity. }
  intros k. unfold critical_functions.
  rewrite (filter_ext _ (same Z.ltb fn_ccn k))
    by (intros f; symmetry; apply same_Z).
  rewrite (filter_ext (fun f => (fn_ccn f =? k)%Z) (same Z.ltb fn_ccn k))
    by (intros f; symmetry; apply same_Z).
  apply (sorted_reverse_stable _ _ Z.ltb fn_ccn (fun _ => true)
           (fun a b c => Zlt_negtrans a b c)). reflexivity.
Qed.

(** X18.  Copying never raises and changes the status bar only.  The
    clipboard tool is run exactly when the report has a critical function
    outside the test files; when the tool returns, the status bar gives
    the number of such functions in the report, and when it raises, the
    message of its exception. *)
Theorem copy_critical_outcome :
  forall clip app,
    exists message,
      fst (action_copy_critical clip app) = update_status app message
      /\ (snd (action_copy_critical clip app) = None
          <-> forall r, result app = Some r ->
                        filter is_critical (functions r) = [])
      /\ (forall text,
            snd (action_copy_critical clip app) = Some text ->
            exists r,
              result app = Some r
              /\ text = join [LF] (report_lines (critical_functions r))
              /\ message
                 = match clip text with
                   | Ok _ =>
                       copied (length (filter is_critical (functions r)))
                   | Raise e => lit "Clipboard error: " ++ exn_str e
                   end).
Proof.
  intros clip app. unfold action_copy_critical.
  destruct (result app) as [r|].
  2:{ exists NO_DATA. cbn. repeat split; intros; discriminate. }
  destruct (functions r) as [|f0 fs] eqn:Ef.
  { exists NO_DATA. cbn. split; [reflexivity|]. split.
    - split; [|reflexivity]. intros _ r' E. injection E as <-.
      now rewrite Ef.
    - intros text H. discriminate. }
  cbv zeta.
  destruct (critical_functions r) as [|c cs] eqn:Ec.
  { exists NO_CRITICAL. cbn. split; [reflexivity|]. split.
    - split; [|reflexivity]. intros _ r' E. injection E as <-.
      now apply critical_nil.
    - intros text H. discriminate. }
  rewrite <- Ec.
  assert (filter is_critical (functions r) <> []) as Hne.
  { intros H. apply critical_nil in H. rewrite H in Ec. discriminate. }
  assert (length (critical_functions r)
          = length (filter is_critical (functions r))) as El
    by (apply Permutation_length, critical_perm).
  destruct (clip (join [LF] (report_lines (critical_functions r))))
    as [u|e] eqn:Eclip; eexists; cbn [fst snd];
    (split; [reflexivity|]); split.
  1,3: split; [discriminate|intros H; destruct Hne; now apply H].
  1,2: intros text H;
       assert (text = join [LF] (report_lines (critical_functions r)))
         as -> by congruence;
       exists r; rewrite Eclip, <- ?El; now repeat split.
Qed.

(** A report with four critical functions, one in a test directory and one
    in a directory whose name contains [test]: the two others are copied,
    the more complex one first. *)
Example copy_critical_sample :
  let at_path f (p : string) :=
    {| fn_nloc := fn_nloc f; fn_ccn := fn_ccn f;
       token_count := token_count f; param_count := param_count f;
       fn_length := fn_length f; fn_name := fn_name f;
       start_line := start_line f; end_line := end_line f;
       fn_file_path := lit p |} in
  let r :=
    {| functions := [sample_function "a" 16;
                     at_path (sample_function "b" 40) "src/Tests/t.py"%string;
                     at_path (sample_function "c" 30) "latest/c.py"%string;
                     sample_function "d" 7;
                     sample_function "e" 120];
       files := []; total_nloc := 0; avg_nloc := float_zero;
       avg_ccn := float_zero; avg_token := float_zero; function_count := 0;
       warning_count := 0 |} in
  critical_functions r = [sample_function "e" 120; sample_function "a" 16]
  /\ join [LF] (report_lines (critical_functions r))
     = lit "CRITICAL FUNCTIONS (CCN > 15)" ++ [LF]
       ++ lit "==================================================" ++ [LF]
       ++ [LF]
       ++ lit "CCN 120 | e" ++ [LF]
       ++ lit "        | src/a.py:1-12" ++ [LF]
       ++ [LF]
       ++ lit "CCN  16 | a" ++ [LF]
       ++ lit "        | src/a.py:1-12" ++ [LF].
Proof. split; vm_compute; reflexivity. Qed.

(** * The preview of the highlighted row *)

Module HighlightFacts.

Lemma py_item_in_range {A} (l : list A) i :
  (0 <= i < Z.of_nat (length l))%Z ->
  py_item l i = nth_error l (Z.to_nat i).
Proof.
  intros H. unfold py_item.
  replace (i <? 0)%Z with false by (symmetry; apply Z.ltb_ge; lia).
  replace (i <? 0)%Z with false by (symmetry; apply Z.ltb_ge; lia).
  replace (Z.of_nat (length l) <=? i)%Z with false
    by (symmetry; apply Z.leb_gt; lia).
  reflexivity.
Qed.

Lemma enumerate_fst {A} (l : list A) : forall k,
  map fst (enumerate l k)
  = map (fun i => (k + Z.of_nat i)%Z) (seq 0 (length l)).
Proof.
  induction l as [|x l IH]; intros k; [reflexivity|].
  cbn [enumerate map length seq fst]. f_equal; [lia|].
  rewrite IH, <- seq_shift, map_map. apply map_ext. intros i. lia.
Qed.

Lemma enumerate_length {A} (l : list A) : forall k,
  length (enumerate l k) = length l.
Proof.
  induction l as [|x l IH]; intros k; simpl; [|rewrite IH]; reflexivity.
Qed.

Lemma py_slice_block {A} (l : list A) a b :
  (0 <= a)%Z ->
  exists pre post,
    l = pre ++ py_slice l a b ++ post
    /\ length pre = Nat.min (Z.to_nat a) (length l).
Proof.
  intros Ha. unfold py_slice.
  replace (a <? 0)%Z with false by (symmetry; apply Z.ltb_ge; lia).
  set (c := Z.to_nat (Z.min a _)). set (i := Z.to_nat _).
  exists (firstn c l), (skipn i (skipn c l)). split.
  - now rewrite firstn_skipn, firstn_skipn.
  - rewrite length_firstn. unfold c. lia.
Qed.

End HighlightFacts.
Import HighlightFacts.

(** X19.  In every state the session reaches, highlighting a row never
    raises an [IndexError]; highlighting a row of the functions table
    previews the function that the table shows in that row; and a cursor
    row outside the table, or a row of another table, leaves the preview
    as it is. *)
Theorem row_highlight_preview :
  forall run_lizard evs app readlines table_id cursor_row,
    run_events run_lizard mounted evs = Ok app ->
    on_data_table_row_highlighted readlines app table_id cursor_row
    <> IndexError
    /\ (forall func,
          table_id = FUNCTIONS_TABLE -> (0 <= cursor_row)%Z ->
          nth_error (functions_table app) (Z.to_nat cursor_row) = Some func ->
          on_data_table_row_highlighted readlines app table_id cursor_row
          = Shown (show_code_preview readlines func))
    /\ ((cursor_row < 0)%Z
        \/ (Z.of_nat (length (functions_table app)) <= cursor_row)%Z
        \/ table_id <> FUNCTIONS_TABLE ->
        on_data_table_row_highlighted readlines app table_id cursor_row
        = Unchanged).
Proof.
  intros run_lizard evs app readlines table_id cursor_row Hrun.
  assert (consistent app) as Hc.
  { apply (run_events_consistent _ _ _ _ Hrun). cbn. now repeat split. }
  unfold consistent in Hc. unfold on_data_table_row_highlighted.
  destruct (Str.eqb table_id FUNCTIONS_TABLE) eqn:Et; cbn [negb].
  2:{ split; [discriminate|]. split; [|reflexivity].
      intros func -> _ _. rewrite eqb_refl in Et. discriminate. }
  assert (table_id = FUNCTIONS_TABLE) as Ht.
  { unfold Str.eqb in Et.
    destruct (list_eq_dec ascii_dec table_id FUNCTIONS_TABLE) as [E|N];
      [exact E|discriminate]. }
  destruct (result app) as [r|].
  - destruct Hc as [Hd [Hf _]]. rewrite Hd, <- Hf.
    destruct (Z.ltb_spec cursor_row 0) as [L|L]; cbn [orb].
    { split; [discriminate|]. split; [intros; lia|reflexivity]. }
    destruct (Z.leb_spec (Z.of_nat (length (functions_table app)))
                cursor_row) as [G|G].
    { split; [discriminate|]. split; [|reflexivity].
      intros func _ _ Hn.
      assert (nth_error (functions_table app) (Z.to_nat cursor_row) <> None)
        as Hs by (rewrite Hn; discriminate).
      apply nth_error_Some in Hs. lia. }
    rewrite py_item_in_range by lia.
    destruct (nth_error (functions_table app) (Z.to_nat cursor_row))
      as [func|] eqn:En.
    + split; [discriminate|]. split.
      * intros func' _ _ E. now injection E as <-.
      * intros [H|[H|H]]; [lia|lia|contradiction].
    + apply nth_error_None in En. lia.
  - destruct Hc as [Hd [Hf _]].
    split; [discriminate|]. split; [|reflexivity].
    intros func _ _ Hn. rewrite Hf in Hn.
    destruct (Z.to_nat cursor_row); discriminate.
Qed.

Lemma row_highlight_preview_witness :
  exists app,
    run_events two_lizard mounted [Submit (lit "a"); Finish 1] = Ok app
    /\ on_data_table_row_highlighted (fun _ => Ok ten_lines) app
         FUNCTIONS_TABLE 0
       = Shown (show_code_preview (fun _ => Ok ten_lines)
                  {| fn_nloc := 10; fn_ccn := 3; token_count := 45;
                     param_count := 2; fn_length := 12; fn_name := lit "foo";
                     start_line := 5; end_line := 16;
                     fn_file_path := lit "a/x.py" |}).
Proof.
  eexists. split; [vm_compute; reflexivity|].
  refine (proj1 (proj2 (row_highlight_preview two_lizard
                          [Submit (lit "a"); Finish 1] _
                          (fun _ => Ok ten_lines) FUNCTIONS_TABLE 0 _))
            _ eq_refl _ _).
  - vm_compute. reflexivity.
  - lia.
  - vm_compute. reflexivity.
Defined.

(** X20.  Whatever the line numbers of the function are, the rows of the
    code window are consecutive lines of the file, each without its
    trailing whitespace, labelled with consecutive numbers from
    [start_line]; the first row is the line after the first [start_line -
    1] lines of the file, or the first line of the file when [start_line]
    is less than 1; and the window never has more rows than the file has
    lines. *)
Theorem window_rows_consecutive :
  forall lines func,
    map fst (window lines func)
    = map (fun i => (start_line func + Z.of_nat i)%Z)
        (seq 0 (length (window lines func)))
    /\ (exists pre block post,
          lines = pre ++ block ++ post
          /\ length pre
             = Nat.min (Z.to_nat (start_line func - 1)) (length lines)
          /\ map snd (window lines func) = map rstrip block)
    /\ length (window lines func) <= length lines.
Proof.
  intros lines func. unfold window.
  destruct (py_slice_block lines
              (Z.max 0 (start_line func - 1))
              (Z.min (Z.of_nat (length lines)) (end_line func)))
    as [pre [post [E El]]]; [lia|].
  revert E. set (sl := py_slice lines _ _). intros E.
  rewrite !length_map, enumerate_length, !map_map. cbn [fst snd].
  split.
  { exact (enumerate_fst sl (start_line func)). }
  split.
  { exists pre, sl, post. split; [exact E|]. split; [lia|].
    rewrite <- (enumerate_snd sl (start_line func)) at 2.
    now rewrite map_map. }
  apply (f_equal (@length str)) in E. rewrite !length_app in E. lia.
Qed.

(** A function that the report places at line 0: the window starts at the
    first line of the file and labels it 0. *)
Example window_from_line_zero :
  window ten_lines (sample_function_at 0 2)
  = [(0%Z, lit "def f(x):"); (1%Z, lit "    a = 1")].
Proof. vm_compute. reflexivity. Qed.

(** * Reading one text after another *)

Module ConcatFacts.

(** What a turn of the loop appends depends on the section only, not on
    what was read before. *)
Local Ltac fin :=
  unfold same_sections in *; cbn; rewrite ?app_nil_r; repeat split;
  solve [reflexivity | assumption | congruence].

Lemma step_frame a b raw a' :
  same_sections a b -> step a raw = Ok a' ->
  exists b' fs fl,
    step b raw = Ok b' /\ same_sections a' b'
    /\ l_functions a' = l_functions a ++ fs
    /\ l_functions b' = l_functions b ++ fs
    /\ l_files a' = l_files a ++ fl
    /\ l_files b' = l_files b ++ fl.
Proof.
  unfold same_sections. intros [Hfn [Hfl Htt]]. unfold step.
  rewrite <- Hfn, <- Hfl, <- Htt.
  destruct (classify (strip raw)).
  1-5: intros H; injection H as <-; eexists; exists [], [];
       (split; [reflexivity|]); fin.
  destruct (in_function_section a) eqn:Efn.
  { destruct (pmatch func_pattern (strip raw)) as [g|];
      [destruct (function_of_groups g) as [f|]|];
      intros H; injection H as <-; eexists;
      [exists [f], []|exists [], []|exists [], []];
      (split; [reflexivity|]); fin. }
  destruct (in_file_section a) eqn:Efl.
  { destruct (pmatch file_pattern (strip raw)) as [g|].
    - destruct (file_of_groups g) as [[f|]|e]; cbn [bind];
        intros H; try discriminate; injection H as <-; eexists;
        [exists [], [f]|exists [], []];
        (split; [reflexivity|]); fin.
    - intros H; injection H as <-; eexists; exists [], [];
        (split; [reflexivity|]); fin. }
  destruct (in_total_section a) eqn:Ett.
  { destruct (pmatch total_pattern (strip raw)) as [g|].
    - destruct (totals_of_groups g) as [[t|]|e]; cbn [bind];
        intros H; try discriminate; injection H as <-; eexists;
        exists [], [];
        (split; [reflexivity|]); fin.
    - intros H; injection H as <-; eexists; exists [], [];
        (split; [reflexivity|]); fin. }
  intros H; injection H as <-; eexists; exists [], [];
    (split; [reflexivity|]); fin.
Qed.

Lemma loop_frame lines : forall a b a',
  same_sections a b -> loop a lines = Ok a' ->
  exists b' fs fl,
    loop b lines = Ok b'
    /\ l_functions a' = l_functions a ++ fs
    /\ l_functions b' = l_functions b ++ fs
    /\ l_files a' = l_files a ++ fl
    /\ l_files b' = l_files b ++ fl.
Proof.
  induction lines as [|l ls IH]; intros a b a' Hs H; cbn [loop] in *.
  - injection H as <-. exists b, [], []. now rewrite !app_nil_r.
  - apply bind_ok in H as [a1 [E H]].
    destruct (step_frame a b l a1 Hs E)
      as [b1 [fs1 [fl1 [Eb [Hs1 [F1 [F2 [F3 F4]]]]]]]].
    destruct (IH a1 b1 a' Hs1 H) as [b' [fs [fl [Lb [G1 [G2 [G3 G4]]]]]]].
    exists b', (fs1 ++ fs), (fl1 ++ fl). rewrite Eb. cbn [bind].
    split; [exact Lb|].
    now rewrite G1, G2, G3, G4, F1, F2, F3, F4, !app_assoc.
Qed.

(** A header line puts the loop in its section, whatever came before. *)
Lemma step_header a b raw :
  no_header raw = false ->
  exists a' b',
    step a raw = Ok a' /\ step b raw = Ok b' /\ same_sections a' b'
    /\ l_functions a' = l_functions a /\ l_functions b' = l_functions b
    /\ l_files a' = l_files a /\ l_files b' = l_files b.
Proof.
  unfold no_header, step. destruct (classify (strip raw));
    intros H; try discriminate; eexists; eexists;
    (split; [reflexivity|]); (split; [reflexivity|]);
    unfold same_sections; cbn; auto 10.
Qed.

End ConcatFacts.
Import ConcatFacts.

(** X21.  Nothing is looked up in what was read before: when a text is
    followed by a text that starts with a section header, the functions of
    the whole are the functions of the first and then the functions of the
    second, and the same for the files.  So a function that the analyzer
    lists again under a second function header is in the report twice. *)
Theorem parse_concatenates :
  forall first header more r1 r2,
    no_header header = false ->
    parse_lines first = Ok r1 ->
    parse_lines (header :: more) = Ok r2 ->
    exists r,
      parse_lines (first ++ header :: more) = Ok r
      /\ functions r = functions r1 ++ functions r2
      /\ files r = files r1 ++ files r2.
Proof.
  intros first header more r1 r2 Hh H1 H2. unfold parse_lines in *.
  apply bind_ok in H1 as [st1 [E1 H1]]. injection H1 as <-.
  apply bind_ok in H2 as [st2 [E2 H2]]. injection H2 as <-.
  rewrite loop_app, E1. cbn [bind loop] in *.
  destruct (step_header init st1 header Hh)
    as [a [b [Ea [Eb [Hs [Fa [Fb [Ga Gb]]]]]]]].
  rewrite Ea in E2. rewrite Eb. cbn [bind] in *.
  destruct (loop_frame more a b st2 Hs E2)
    as [b' [fs [fl [Lb [K1 [K2 [K3 K4]]]]]]].
  rewrite Lb. cbn [bind]. eexists. split; [reflexivity|].
  cbn [report_of functions files].
  rewrite K1, K2, K3, K4, Fa, Fb, Ga, Gb. cbn. auto.
Qed.

Lemma parse_concatenates_witness :
  exists r,
    parse_lines
      ([FUNCTION_HEADER; lit "10  3  45  2  12  foo@5-16@a/x.py"]
       ++ FUNCTION_HEADER :: [lit "10  3  45  2  12  foo@5-16@a/x.py"])
    = Ok r
    /\ functions r = functions report_a ++ functions report_a
    /\ files r = files report_a ++ files report_a.
Proof.
  exact (parse_concatenates
           [FUNCTION_HEADER; lit "10  3  45  2  12  foo@5-16@a/x.py"]
           FUNCTION_HEADER [lit "10  3  45  2  12  foo@5-16@a/x.py"]
           report_a report_a eq_refl eq_refl eq_refl).
Defined.
